(** * Rawdah admin page: slot expansion, conflict detection, CSV export, totals

    A shallow embedding of the logic of the admin page component
    (helpers [fmtDate], [dateRange], [weekdayName], [buildCSV], the
    [handleValidatePreview] action and the [totals] memo), followed by the
    properties established about it.

    Conventions of the embedding:
    - a JavaScript number is an integer or [NaN] (type [number]); fractions
      and infinities are not represented, and the decimal rendering is the
      one of integers below 10^21 in absolute value;
    - a JavaScript string is a [string] of 8-bit characters; the code only
      ever inspects the ASCII characters comma, double quote, LF, CR, bar;
    - a plain object is the list of its own properties in [Object.keys]
      order; a property that is not there reads as [undefined] (property
      names are taken not to be names of members of [Object.prototype]);
    - a [Date] is its time value, milliseconds since the epoch, and the
      local time zone is a fixed offset [tz] in minutes east of UTC (no
      daylight-saving transitions). *)

From Stdlib Require Import ZArith String Ascii List Lia.
From Stdlib Require Import DecimalString DecimalZ DecimalPos.
From stdpp Require Import base option list strings gmap.
From Equations Require Import Equations.

Local Open Scope string_scope.
Local Open Scope Z_scope.
Local Open Scope list_scope.

(** ** JavaScript values *)

Module JS.

Inductive number : Type :=
| Fin (z : Z)
| NaN.

(** [a + b] on numbers. *)
Definition nadd (a b : number) : number :=
  match a, b with
  | Fin x, Fin y => Fin (x + y)
  | _, _ => NaN
  end.

(** [a > 0]; every comparison with [NaN] is false. *)
Definition gt0 (a : number) : bool :=
  match a with
  | Fin x => 0 <? x
  | NaN => false
  end.

(** Decimal rendering of an integer: ["0"], ["42"], ["-7"]. *)
Definition showZ (z : Z) : string := NilZero.string_of_int (Z.to_int z).

Definition showNumber (n : number) : string :=
  match n with
  | Fin z => showZ z
  | NaN => "NaN"
  end.

Inductive Value : Type :=
| VUndefined
| VNull
| VBool (b : bool)
| VNum (n : number)
| VStr (s : string).

(** [String(v)]. *)
Definition ToString (v : Value) : string :=
  match v with
  | VUndefined => "undefined"
  | VNull => "null"
  | VBool true => "true"
  | VBool false => "false"
  | VNum n => showNumber n
  | VStr s => s
  end.

(** [v ?? w]. *)
Definition nullish (v w : Value) : Value :=
  match v with
  | VUndefined | VNull => w
  | _ => v
  end.

(** Truthiness, as used by [||]. *)
Definition truthy (v : Value) : bool :=
  match v with
  | VUndefined | VNull => false
  | VBool b => b
  | VNum (Fin z) => negb (z =? 0)
  | VNum NaN => false
  | VStr s => negb (String.eqb s "")
  end.

(** [v || w]. *)
Definition or_else (v w : Value) : Value := if truthy v then v else w.

(** A plain object: own enumerable properties in [Object.keys] order. *)
Definition Obj : Type := list (string * Value).

Definition keys (o : Obj) : list string := map fst o.

(** [o[k]]. *)
Fixpoint get (o : Obj) (k : string) : Value :=
  match o with
  | [] => VUndefined
  | (k', v) :: o' => if String.eqb k' k then v else get o' k
  end.

(** [xs.join(sep)] on an array of strings. *)
Definition join (sep : string) (xs : list string) : string := String.concat sep xs.

(** [xs.includes(x)] on an array of strings. *)
Definition includes (xs : list string) (x : string) : bool :=
  existsb (String.eqb x) xs.

End JS.

Import JS.

(** ** CSV serializer *)

Definition COMMA : ascii := ","%char.
Definition DQUOTE : ascii := Ascii.ascii_of_nat 34.
Definition LF : ascii := Ascii.ascii_of_nat 10.
Definition CR : ascii := Ascii.ascii_of_nat 13.

(** The character class of the regular expression in [esc]: double quote,
    comma, line feed, carriage return. *)
Definition inClass (c : ascii) : bool :=
  Ascii.eqb c DQUOTE || Ascii.eqb c COMMA || Ascii.eqb c LF || Ascii.eqb c CR.

(** [re.test(s)] for a regular expression that is one character class:
    some character of [s] is in the class. *)
Fixpoint test (cls : ascii -> bool) (s : string) : bool :=
  match s with
  | EmptyString => false
  | String c s' => cls c || test cls s'
  end.

(** [s.replaceAll(c, rep)] for a one-character search string [c]. *)
Fixpoint replaceAll (c : ascii) (rep : string) (s : string) : string :=
  match s with
  | EmptyString => EmptyString
  | String a s' =>
      if Ascii.eqb a c then rep +:+ replaceAll c rep s'
      else String a (replaceAll c rep s')
  end.

Definition esc (val : Value) : string :=
  let s := ToString (nullish val (VStr "")) in
  if test inClass s
  then String DQUOTE (replaceAll DQUOTE (String DQUOTE (String DQUOTE "")) s
                      +:+ String DQUOTE "")
  else s.

Definition buildCSV (rows : list Obj) : string :=
  match rows with
  | [] => ""
  | r0 :: _ =>
      let headers := keys r0 in
      let lines :=
        fold_left
          (fun lines r => lines ++ [join "," (map (fun h => esc (get r h)) headers)])
          rows [join "," headers] in
      join (String LF "") lines
  end.

(** ** Dates *)

Module Dates.

Definition msPerDay : Z := 86400000.
Definition msPerMinute : Z := 60000.

(** Proleptic Gregorian calendar: day number since 1970-01-01 of a civil
    date, and back.  This is the calendar behind [Date]. *)
Definition days_from_civil (y m d : Z) : Z :=
  let y' := if m <=? 2 then y - 1 else y in
  let era := y' / 400 in
  let yoe := y' - era * 400 in
  let mp := if 2 <? m then m - 3 else m + 9 in
  let doy := (153 * mp + 2) / 5 + d - 1 in
  let doe := yoe * 365 + yoe / 4 - yoe / 100 + doy in
  era * 146097 + doe - 719468.

Definition civil_from_days (z : Z) : Z * Z * Z :=
  let z' := z + 719468 in
  let era := z' / 146097 in
  let doe := z' mod 146097 in
  let yoe := (doe - doe / 1460 + doe / 36524 - doe / 146096) / 365 in
  let y := yoe + era * 400 in
  let doy := doe - (365 * yoe + yoe / 4 - yoe / 100) in
  let mp := (5 * doy + 2) / 153 in
  let d := doy - (153 * mp + 2) / 5 + 1 in
  let m := if mp <? 10 then mp + 3 else mp - 9 in
  (if m <=? 2 then y + 1 else y, m, d).

Definition isLeap (y : Z) : bool :=
  (y mod 4 =? 0) && (negb (y mod 100 =? 0) || (y mod 400 =? 0)).

Definition daysInMonth (y m : Z) : Z :=
  if m =? 2 then (if isLeap y then 29 else 28)
  else if (m =? 4) || (m =? 6) || (m =? 9) || (m =? 11) then 30
  else 31.

Fixpoint zeros (n : nat) : string :=
  match n with
  | O => ""
  | S n' => String "0" (zeros n')
  end.

(** [String(n).padStart(w, "0")] for [n >= 0]. *)
Definition pad (w : nat) (n : Z) : string :=
  let s := showZ n in zeros (w - String.length s) +:+ s.

(** The date part of [toISOString()] for a UTC day number: four digits
    for years 0 to 9999, a sign and six digits otherwise. *)
Definition isoDatePart (day : Z) : string :=
  let '(y, m, d) := civil_from_days day in
  let year :=
    if (0 <=? y) && (y <=? 9999) then pad 4 y
    else (if y <? 0 then "-" else "+") +:+ pad 6 (Z.abs y) in
  year +:+ "-" +:+ pad 2 m +:+ "-" +:+ pad 2 d.

(** [d.toISOString().slice(0,10)]: the first ten characters of the UTC
    rendering of the time value [t]. *)
Definition fmtDate (t : Z) : string :=
  String.substring 0 10 (isoDatePart (t / msPerDay) +:+ "T").

(** A run of decimal digits as a number. *)
Definition digits (s : string) : option Z :=
  match s with
  | EmptyString => None
  | _ => option_map Z.of_uint (NilEmpty.uint_of_string s)
  end.

(** The civil date written [YYYY-MM-DD], the value format of a date input.
    Anything that is not a calendar date in that format is no date. *)
Definition parseDate (s : string) : option (Z * Z * Z) :=
  if (String.length s =? 10)%nat
     && String.eqb (String.substring 4 1 s) "-"
     && String.eqb (String.substring 7 1 s) "-"
  then
    match digits (String.substring 0 4 s),
          digits (String.substring 5 2 s),
          digits (String.substring 8 2 s) with
    | Some y, Some m, Some d =>
        if (1 <=? m) && (m <=? 12) && (1 <=? d) && (d <=? daysInMonth y m)
        then Some (y, m, d) else None
    | _, _, _ => None
    end
  else None.

Section LocalTime.

(** Offset of local time from UTC, in minutes, positive east of Greenwich
    ([-d.getTimezoneOffset()]). *)
Variable tz : Z.

(** Local midnight of the day with day number [day], as a time value. *)
Definition dayStart (day : Z) : Z := day * msPerDay - tz * msPerMinute.

(** Local midnight of the civil date [(y, m, d)]. *)
Definition localMidnight (ymd : Z * Z * Z) : Z :=
  let '(y, m, d) := ymd in dayStart (days_from_civil y m d).

(** [new Date(s + "T00:00:00")]: a date-time without offset is local
    time; [None] is Invalid Date. *)
Definition newDate (s : string) : option Z :=
  option_map localMidnight (parseDate s).

(** [d.getDay()]: day of the week in local time, 0 = Sunday.
    1970-01-01 was a Thursday. *)
Definition getDay (t : Z) : Z :=
  ((t + tz * msPerMinute) / msPerDay + 4) mod 7.

(** [d.setDate(d.getDate()+1)]: same local time on the next local day,
    which is 24 hours later under a fixed offset. *)
Definition nextDay (t : Z) : Z := t + msPerDay.

Definition weekdayName (t : Z) : string :=
  nth (Z.to_nat (getDay t))
      ["Sunday";"Monday";"Tuesday";"Wednesday";"Thursday";"Friday";"Saturday"]
      "undefined".

End LocalTime.

(** The generator [dateRange], as the list of the dates it yields.  Each
    yielded value is a fresh copy, so later [setDate] calls do not reach
    it. *)
Equations? dateRange (d to : Z) : list Z
  by wf (Z.to_nat ((to - d) / msPerDay + 1)) lt :=
  dateRange d to with Z_le_gt_dec d to => {
    | left _ := d :: dateRange (nextDay d) to;
    | right _ := [] }.
Proof.
  unfold nextDay.
  replace (to - (d + msPerDay)) with ((to - d) + (-1) * msPerDay) by ring.
  rewrite Z.div_add by (unfold msPerDay; lia).
  assert (0 <= (to - d) / msPerDay) by (apply Z.div_pos; unfold msPerDay; lia).
  lia.
Qed.

End Dates.

Import Dates.

(** ** Rows *)

Record SlotRow : Type := {
  Slot_ID : number;
  Start_Time : string;
  End_Time : string;
  Day : string;
  Gender : string;
  Capacity : number
}.

(** [ExpandedRow extends SlotRow] with a [Date]; [{ ...r, Date }] keeps
    every field of [r]. *)
Record ExpandedRow : Type := {
  slot :> SlotRow;
  Date : string
}.

Module Booking.

Inductive Status : Type := Booked | Checked_in | Cancelled.

Record Row : Type := {
  Booking_ID : string;
  Date : string;
  Slot_ID : number;
  Start_Time : string;
  End_Time : string;
  Gender : string;
  Seats_Booked : number;
  Pilgrim_Name : string;
  Nationality : string;
  Pilgrim_ID : string;
  Group : option string;
  Status_ : Status;
  Created_At : string
}.

(** [b.Status !== "Cancelled"]. *)
Definition notCancelled (s : Status) : bool :=
  match s with
  | Cancelled => false
  | _ => true
  end.

End Booking.

(** ** Expansion of the templates over the date range *)

Section Expand.

Variable tz : Z.

(** [r.Day === "All" || r.Day === wd]. *)
Definition dayMatches (wd : string) (r : SlotRow) : bool :=
  String.eqb (Day r) "All" || String.eqb (Day r) wd.

(** The two nested [for] loops of [handleValidatePreview] that fill
    [expanded] by [push]. *)
Definition expand (norm : list SlotRow) (from to : Z) : list ExpandedRow :=
  fold_left
    (fun expanded d =>
       let wd := weekdayName tz d in
       fold_left
         (fun expanded r =>
            if dayMatches wd r
            then expanded ++ [{| slot := r; Date := fmtDate d |}]
            else expanded)
         norm expanded)
    (dateRange from to) [].

End Expand.

(** ** Conflict detection *)

Module Conflict.

Record Counts : Type := { men : Z; women : Z }.

(** The template literal [`${r.Date}|${r.Slot_ID}`]. *)
Definition key (date : string) (slotId : number) : string :=
  date +:+ "|" +:+ showNumber slotId.

(** One iteration of the loop over [expanded].  The record stored under
    the key is updated in place; entry order is not kept, only lookups
    and the number of entries are used. *)
Definition step (conflicts : gmap string Counts) (r : ExpandedRow)
  : gmap string Counts :=
  let k := key (Date r) (Slot_ID r) in
  let c0 := default {| men := 0; women := 0 |} (conflicts !! k) in
  let c1 :=
    if String.eqb (Gender r) "Men"
    then {| men := men c0 + (if gt0 (Capacity r) then 1 else 0); women := women c0 |}
    else c0 in
  let c2 :=
    if String.eqb (Gender r) "Women"
    then {| men := men c1; women := women c1 + (if gt0 (Capacity r) then 1 else 0) |}
    else c1 in
  <[k := c2]> conflicts.

Definition conflicts (expanded : list ExpandedRow) : gmap string Counts :=
  fold_left step expanded ∅.

(** [([,v]) => v.men>0 && v.women>0]. *)
Definition isBad (v : Counts) : bool := (0 <? men v) && (0 <? women v).

(** [Object.entries(conflicts).filter(...)]. *)
Definition bad (expanded : list ExpandedRow) : list (string * Counts) :=
  List.filter (fun kv => isBad (snd kv)) (map_to_list (conflicts expanded)).

End Conflict.

(** ** Widgets *)

Module Widgets.

Record Totals : Type := {
  total : number;
  men : number;
  women : number;
  booked : number
}.

(** The [totals] memo: one loop over [imported] with three running sums
    and a [reduce] over [bookings]. *)
Definition totals (imported : list ExpandedRow) (bookings : list Booking.Row)
  : Totals :=
  let '(total, men, women) :=
    fold_left
      (fun '(total, men, women) (r : ExpandedRow) =>
         let total := nadd total (Capacity r) in
         if String.eqb (Gender r) "Men"
         then (total, nadd men (Capacity r), women)
         else (total, men, nadd women (Capacity r)))
      imported (Fin 0, Fin 0, Fin 0) in
  let booked :=
    fold_left
      (fun s b =>
         nadd s (if Booking.notCancelled (Booking.Status_ b)
                 then Booking.Seats_Booked b else Fin 0))
      bookings (Fin 0) in
  {| total := total; men := men; women := women; booked := booked |}.

End Widgets.

(** ** The uploaded workbook *)

Inductive Exn : Type := Error (message : string).

Definition message (e : Exn) : string := match e with Error m => m end.

(** The spreadsheet library is not part of the repository.  A sheet is
    taken as its first row (the column names) and its data rows, and
    [sheet_to_json] with [{ defval: "" }] as the library documents it: one
    object per data row, keyed by the column names, an empty cell read as
    the empty string. *)
Record Sheet : Type := {
  headerRow : list string;
  dataRows : list (list Value)
}.

Fixpoint rowObject (names : list string) (cells : list Value) : Obj :=
  match names with
  | [] => []
  | h :: names' =>
      (h, nullish (hd VUndefined cells) (VStr "")) :: rowObject names' (tl cells)
  end.

Definition sheet_to_json (ws : Sheet) : list Obj :=
  map (rowObject (headerRow ws)) (dataRows ws).

(** What [excelFile.arrayBuffer()], [XLSX.read] and the lookup of the
    first sheet give for a picked file: an exception or the sheet. *)
Definition File : Type := (Exn + Sheet)%type.

(** ** Component state and effects *)

Record State : Type := {
  fromDate : string;
  toDate : string;
  excelFile : option File;
  loading : bool;
  imported : list ExpandedRow;
  bookings : list Booking.Row;
  alerts : list string;
  errors : list Exn
}.

Definition setLoading (b : bool) (st : State) : State :=
  {| fromDate := fromDate st; toDate := toDate st; excelFile := excelFile st;
     loading := b; imported := imported st; bookings := bookings st;
     alerts := alerts st; errors := errors st |}.

Definition setImported (rows : list ExpandedRow) (st : State) : State :=
  {| fromDate := fromDate st; toDate := toDate st; excelFile := excelFile st;
     loading := loading st; imported := rows; bookings := bookings st;
     alerts := alerts st; errors := errors st |}.

(** [alert(msg)]: the messages shown so far, oldest first. *)
Definition alert (msg : string) (st : State) : State :=
  {| fromDate := fromDate st; toDate := toDate st; excelFile := excelFile st;
     loading := loading st; imported := imported st; bookings := bookings st;
     alerts := alerts st ++ [msg]; errors := errors st |}.

(** [console.error(e)]. *)
Definition consoleError (e : Exn) (st : State) : State :=
  {| fromDate := fromDate st; toDate := toDate st; excelFile := excelFile st;
     loading := loading st; imported := imported st; bookings := bookings st;
     alerts := alerts st; errors := errors st ++ [e] |}.

(** Computations over the state that may throw. *)
Definition M (A : Type) : Type := State -> (Exn + A) * State.

Definition ret {A} (a : A) : M A := fun st => (inr a, st).

Definition bind {A B} (m : M A) (k : A -> M B) : M B :=
  fun st =>
    match m st with
    | (inl e, st') => (inl e, st')
    | (inr a, st') => k a st'
    end.

Definition throw {A} (e : Exn) : M A := fun st => (inl e, st).

Definition modify (f : State -> State) : M unit := fun st => (inr tt, f st).

(** [try { m } catch (e) { h e }]. *)
Definition tryCatch {A} (m : M A) (h : Exn -> M A) : M A :=
  fun st =>
    match m st with
    | (inl e, st') => h e st'
    | (inr a, st') => (inr a, st')
    end.

(** [try { m } finally { f }]. *)
Definition tryFinally {A} (m : M A) (f : M unit) : M A :=
  fun st =>
    let '(r, st') := m st in
    match f st' with
    | (inl e, st'') => (inl e, st'')
    | (inr _, st'') => (r, st'')
    end.

Notation "x <- m ;; k" := (bind m (fun x => k))
  (at level 100, m at next level, right associativity).
Notation "m ;;; k" := (bind m (fun _ => k))
  (at level 100, right associativity).

(** ** Validate and preview *)

Section Page.

Variable tz : Z.

(** [Number(s)] on a string, left to the engine. *)
Variable StringToNumber : string -> number.

(** [Number(v)]. *)
Definition ToNumber (v : Value) : number :=
  match v with
  | VUndefined => NaN
  | VNull => Fin 0
  | VBool true => Fin 1
  | VBool false => Fin 0
  | VNum n => n
  | VStr s => StringToNumber s
  end.

Definition required : list string :=
  ["Slot_ID"; "Start_Time"; "End_Time"; "Day"; "Gender"; "Capacity"].

(** [required.every(h => Object.keys(rows[0]||{}).includes(h))]. *)
Definition headerOk (rows : list Obj) : bool :=
  forallb (fun h => includes (keys (hd [] rows)) h) required.

Definition invalidHeaders : Exn :=
  Error ("Invalid headers. Expected: " +:+ join ", " required).

Definition normRow (r : Obj) : SlotRow :=
  {| Slot_ID := ToNumber (get r "Slot_ID");
     Start_Time := ToString (get r "Start_Time");
     End_Time := ToString (get r "End_Time");
     Day := ToString (get r "Day");
     Gender := ToString (get r "Gender");
     Capacity := ToNumber (or_else (get r "Capacity") (VNum (Fin 0))) |}.

(** The expansion over the dates typed in the two date inputs.  A
    comparison with an Invalid Date is false, so the loop yields nothing
    when either string is not a date. *)
Definition expandRange (norm : list SlotRow) (from to : string)
  : list ExpandedRow :=
  match newDate tz from, newDate tz to with
  | Some a, Some b => expand tz norm a b
  | _, _ => []
  end.

Definition previewMessage (expanded : list ExpandedRow) : string :=
  "Preview ready. Rows: " +:+ showZ (Z.of_nat (length expanded))
  +:+ ". Conflicts found: "
  +:+ showZ (Z.of_nat (length (Conflict.bad expanded))) +:+ ".".

(** The body of the [try] block. *)
Definition previewBody (file : File) (from to : string) : M unit :=
  ws <- match file with inl e => throw e | inr ws => ret ws end ;;
  let rows := sheet_to_json ws in
  if negb (headerOk rows) then throw invalidHeaders
  else
    let norm := map normRow rows in
    let expanded := expandRange norm from to in
    modify (setImported expanded) ;;;
    modify (alert (previewMessage expanded)).

Definition handleValidatePreview : M unit :=
  fun st =>
    match excelFile st with
    | Some file =>
        if String.eqb (fromDate st) "" || String.eqb (toDate st) ""
        then modify (alert "Select From/To dates and upload an Excel file.") st
        else
          (modify (setLoading true) ;;;
           tryFinally
             (tryCatch (previewBody file (fromDate st) (toDate st))
                (fun e =>
                   modify (consoleError e) ;;;
                   modify (alert ("Error: " +:+ message e))))
             (modify (setLoading false))) st
    | None => modify (alert "Select From/To dates and upload an Excel file.") st
    end.

End Page.

(** ** Import and the applied dates *)

Section Applied.

Variable tz : Z.

(** [addRangeToApplied]: a copy of the set with the date text of every
    date of the range added.  Nothing is added when a string is not a
    date, as the loop does not run. *)
Definition addRangeToApplied (appliedDates : gset string) (from to : string)
  : gset string :=
  match newDate tz from, newDate tz to with
  | Some a, Some b =>
      fold_left (fun set d => {[ fmtDate d ]} ∪ set) (dateRange a b) appliedDates
  | _, _ => appliedDates
  end.

Definition importMessage (rows : list ExpandedRow) : string :=
  "Imported " +:+ showZ (Z.of_nat (length rows))
  +:+ " rows. Policy: Replace existing range.".

(** [handleImport], on the component state and the applied dates. *)
Definition handleImport (st : State) (appliedDates : gset string)
  : State * gset string :=
  match imported st with
  | [] => (alert "Run Validate & Preview first." st, appliedDates)
  | _ :: _ =>
      let applied :=
        if negb (String.eqb (fromDate st) "") && negb (String.eqb (toDate st) "")
        then addRangeToApplied appliedDates (fromDate st) (toDate st)
        else appliedDates in
      (alert (importMessage (imported st)) st, applied)
  end.

(** The [overlapCount] memo. *)
Definition overlapCount (fromDate toDate : string) (appliedDates : gset string) : Z :=
  if String.eqb fromDate "" || String.eqb toDate "" then 0
  else
    match newDate tz fromDate, newDate tz toDate with
    | Some a, Some b =>
        fold_left
          (fun c d => if bool_decide (fmtDate d ∈ appliedDates) then c + 1 else c)
          (dateRange a b) 0
    | _, _ => 0
    end.

End Applied.

(** ** Filters and pages *)

(** The [capacitiesView] memo; an empty filter string is no filter. *)
Definition capacitiesView (imported : list ExpandedRow)
    (filterDay filterGender filterDate : string) : list ExpandedRow :=
  List.filter
    (fun r : ExpandedRow =>
       (String.eqb filterDay "" || String.eqb (Day r) filterDay)
       && (String.eqb filterGender "" || String.eqb (Gender r) filterGender)
       && (String.eqb filterDate "" || String.eqb (Date r) filterDate))
    imported.

Definition PAGE_SIZE : Z := 20.

(** [Math.ceil(n / d)] for integers [n] and [d > 0]. *)
Definition ceilDiv (n d : Z) : Z := - ((- n) / d).

(** [Math.max(1, Math.ceil(total / PAGE_SIZE))]. *)
Definition pageCount (total : Z) : Z := Z.max 1 (ceilDiv total PAGE_SIZE).

(** An index argument of [slice] against the length: negative counts
    from the end, and the result is clamped to the array. *)
Definition relativeIndex (len i : Z) : Z :=
  if i <? 0 then Z.max (len + i) 0 else Z.min i len.

(** [l.slice(start, stop)]. *)
Definition slice {A} (l : list A) (start stop : Z) : list A :=
  let len := Z.of_nat (length l) in
  let k := relativeIndex len start in
  let final := relativeIndex len stop in
  firstn (Z.to_nat (final - k)) (skipn (Z.to_nat k) l).

(** The rows of page [page]: [(page-1)*PAGE_SIZE] up to that plus
    [PAGE_SIZE]. *)
Definition pageRows {A} (rows : list A) (page : Z) : list A :=
  let start := (page - 1) * PAGE_SIZE in
  slice rows start (start + PAGE_SIZE).

(** The Prev and Next buttons. *)
Definition prevPage (p : Z) : Z := Z.max 1 (p - 1).
Definition nextPage (pages p : Z) : Z := Z.min pages (p + 1).

(** The two bounds of the line Showing a-b of n. *)
Definition showingFrom (total page : Z) : Z :=
  Z.min total ((page - 1) * PAGE_SIZE + 1).
Definition showingTo (total page : Z) : Z :=
  Z.min total ((page - 1) * PAGE_SIZE + PAGE_SIZE).

(** The pagination check run in an effect: at most [PAGE_SIZE] rows on
    the page and at least one page. *)
Definition paginationOk {A} (rows : list A) (page : Z) : bool :=
  (Z.of_nat (length (pageRows rows page)) <=? PAGE_SIZE)
  && (1 <=? pageCount (Z.of_nat (length rows))).

(** ** Export *)

(** The object an expanded row is: the literal built in [norm], spread,
    then [Date]. *)
Definition expandedObject (r : ExpandedRow) : Obj :=
  [ ("Slot_ID", VNum (Slot_ID r)); ("Start_Time", VStr (Start_Time r));
    ("End_Time", VStr (End_Time r)); ("Day", VStr (Day r));
    ("Gender", VStr (Gender r)); ("Capacity", VNum (Capacity r));
    ("Date", VStr (Date r)) ].

(** [downloadCSV]: nothing for no rows, otherwise one file with the given
    name holding [buildCSV rows]. *)
Definition downloadCSV (filename : string) (rows : list Obj)
  : option (string * string) :=
  match rows with
  | [] => None
  | _ :: _ => Some (filename, buildCSV rows)
  end.

(** [exportCapacities]: the filtered rows, all pages. *)
Definition exportCapacities (imported : list ExpandedRow)
    (filterDay filterGender filterDate : string) : option (string * string) :=
  downloadCSV "capacities.csv"
    (map expandedObject (capacitiesView imported filterDay filterGender filterDate)).

(** ** The calendar *)

Section Calendar.

Variable tz : Z.

(** [new Date(year, month, day)]: local midnight of a civil date, months
    counted from 0.  A day number of 0 is the last day of the month
    before, and month 12 is January of the next year.  (Years 0 to 99,
    which this constructor reads as 1900 to 1999, are left out.) *)
Definition dateOf (year month day : Z) : Z :=
  dayStart tz (days_from_civil year (month + 1) day).

(** [d.getDate()]: day of the month in local time. *)
Definition getDate (t : Z) : Z :=
  let '(_, _, d) := civil_from_days ((t + tz * msPerMinute) / msPerDay) in d.

(** The cells of [CalendarMonth] for the month of the cursor: [None] is
    a leading blank, [Some d] the cell of the date [d]. *)
Definition calendarCells (year month : Z) : list (option Z) :=
  let first := dateOf year month 1 in
  let startDay := getDay tz first in
  let daysInMonth := getDate (dateOf year (month + 1) 0) in
  let blanks := fold_left (fun cells _ => cells ++ [None]) (seqZ 0 startDay) [] in
  fold_left (fun cells day => cells ++ [Some (dateOf year month day)])
            (seqZ 1 daysInMonth) blanks.




End Calendar.

(** ** Mock bookings *)

(** What the code looks at in one value of [Math.random()]: whether it
    is below 0.08, and the floor of four times the value. *)
Record Draw : Type := {
  below008 : bool;
  floorTimes4 : Z
}.

(** [n <= 0]. *)
Definition le0 (n : number) : bool :=
  match n with
  | Fin z => z <=? 0
  | NaN => false
  end.

Definition setBookings (rows : list Booking.Row) (st : State) : State :=
  {| fromDate := fromDate st; toDate := toDate st; excelFile := excelFile st;
     loading := loading st; imported := imported st; bookings := rows;
     alerts := alerts st; errors := errors st |}.

Section Mock.

(** The successive values of [Math.random()], and the text of
    [new Date().toISOString()]. *)
Variable random : nat -> Draw.
Variable now : string.

(** The object pushed for row [r] when the counter is [i]. *)
Definition mockBooking (i seats : Z) (r : ExpandedRow) : Booking.Row :=
  {| Booking.Booking_ID := "B" +:+ pad 5 i;
     Booking.Date := Date r;
     Booking.Slot_ID := Slot_ID r;
     Booking.Start_Time := Start_Time r;
     Booking.End_Time := End_Time r;
     Booking.Gender := Gender r;
     Booking.Seats_Booked := Fin seats;
     Booking.Pilgrim_Name :=
       nth (Z.to_nat (i mod 5)) ["Ahmed";"Fatimah";"Yousef";"Mariam";"Khalid"] "undefined"
       +:+ " " +:+ nth (Z.to_nat (i mod 5)) ["A.";"B.";"C.";"D.";"E."] "undefined";
     Booking.Nationality :=
       nth (Z.to_nat (i mod 5)) ["KSA";"EGY";"PAK";"IDN";"TUR"] "undefined";
     Booking.Pilgrim_ID := "P" +:+ showZ (100000 + i);
     Booking.Group := Some (if i mod 3 =? 0 then "Agency X" else "");
     Booking.Status_ :=
       if i mod 13 =? 0 then Booking.Cancelled
       else if i mod 7 =? 0 then Booking.Checked_in
       else Booking.Booked;
     Booking.Created_At := now |}.

(** The state of the loop: the sample, the counter [i], the number of
    random values used, and whether [break] was reached. *)
Definition MockLoop : Type := (list Booking.Row * Z * nat * bool)%type.

(** One round of the loop over [pick]. *)
Definition mockStep (st : MockLoop) (r : ExpandedRow) : MockLoop :=
  let '(sample, i, used, stopped) := st in
  if stopped then st
  else if le0 (Capacity r) then st
  else if below008 (random used) then (sample, i, S used, false)
  else
    let seats := Z.min 5 (Z.max 1 (floorTimes4 (random (S used)) + 1)) in
    let sample' := sample ++ [mockBooking i seats r] in
    (sample', i + 1, S (S used), 200 <? Z.of_nat (length sample')).

Definition mockSample (imported : list ExpandedRow) : list Booking.Row :=
  let pick := slice imported 0 400 in
  let '(sample, _, _, _) := fold_left mockStep pick ([], 1, O, false) in
  sample.

Definition loadMockBookings (st : State) : State :=
  match imported st with
  | [] => alert "Import capacities first to align slots." st
  | _ :: _ => setBookings (mockSample (imported st)) st
  end.

End Mock.

(** ** Reference definitions used in the statements *)




(** The days [a, a+1, ..., b] in ascending order (none when [b < a]). *)
Definition daysFromTo (a b : Z) : list Z := seqZ a (b - a + 1).

(** The rows of the group [(date, slotId)]. *)
Definition inGroup (date : string) (slotId : number) (r : ExpandedRow) : Prop :=
  Date r = date /\ Slot_ID r = slotId.

(** A row of gender [g] with capacity above zero. *)
Definition positiveOf (g : string) (r : ExpandedRow) : bool :=
  String.eqb (Gender r) g && gt0 (Capacity r).

(** Some row is stored under key [k]. *)
Definition keyUsed (k : string) (rows : list ExpandedRow) : bool :=
  existsb (fun r => String.eqb (Conflict.key (Date r) (Slot_ID r)) k) rows.

(** Rows stored under key [k] that are positive rows of gender [g]. *)
Definition countPositive (k g : string) (rows : list ExpandedRow) : Z :=
  Z.of_nat (length (List.filter
    (fun r => String.eqb (Conflict.key (Date r) (Slot_ID r)) k && positiveOf g r) rows)).

(** The characters of the decimal rendering of an integer. *)
Definition isNumChar (c : ascii) : bool :=
  Ascii.eqb c "-" ||
  existsb (Ascii.eqb c) ["0";"1";"2";"3";"4";"5";"6";"7";"8";"9"]%char.

(** The detector reports the group [(date, slotId)]: its key is among the
    entries kept in [bad]. *)
Definition flagged (rows : list ExpandedRow) (date : string) (slotId : number) : Prop :=
  exists v, In (Conflict.key date slotId, v) (Conflict.bad rows).

(** The characters of a string. *)
Definition chars (s : string) : list ascii := list_ascii_of_string s.

(** The text contains a comma, a double quote, a line feed or a carriage
    return. *)
Definition needsQuotes (s : string) : Prop :=
  exists c, In c (chars s) /\ (c = COMMA \/ c = DQUOTE \/ c = LF \/ c = CR).

(** A double quote becomes two, any other character stays. *)
Definition doubleQuote (c : ascii) : list ascii :=
  if Ascii.eqb c DQUOTE then [DQUOTE; DQUOTE] else [c].

(** The text between double quotes, every double quote inside doubled. *)
Definition quoted (s : string) : list ascii :=
  DQUOTE :: flat_map doubleQuote (chars s) ++ [DQUOTE].

(** The line of one row: the cells of the header columns, comma-joined. *)
Definition csvLine (headers : list string) (r : Obj) : string :=
  join "," (map (fun h => esc (get r h)) headers).

(** Sum of a list of numbers. *)
Definition nsum (l : list number) : number := fold_right nadd (Fin 0) l.

(** Sum of [Capacity] over the rows whose gender is [g]. *)
Definition capacityOf (g : string) (rows : list ExpandedRow) : number :=
  nsum (map (fun r : ExpandedRow => Capacity r)
            (List.filter (fun r : ExpandedRow => String.eqb (Gender r) g) rows)).

Global Instance Status_eq_dec : EqDecision Booking.Status.
Proof. solve_decision. Defined.

(** Sum of [Seats_Booked] over the bookings that are not cancelled. *)
Definition seatsNotCancelled (bookings : list Booking.Row) : number :=
  nsum (map Booking.Seats_Booked
            (List.filter (fun b => bool_decide (Booking.Status_ b <> Booking.Cancelled))
                         bookings)).

(** *** A reader for the CSV text

    The usual reading of comma-separated text: a double quote opens or
    closes a quoted stretch, a comma outside quotes ends a cell, a line
    feed outside quotes ends a record; a cell that starts with a double
    quote is decoded by dropping the outer quotes and halving the doubled
    ones. *)

(** Cells and records read from [s], given whether the reader is inside
    quotes, the cell read so far and the cells of the current record. *)
Fixpoint splitFrom (inq : bool) (cell : string) (record : list string) (s : string)
  : list (list string) :=
  match s with
  | EmptyString => [record ++ [cell]]
  | String c s' =>
      if Ascii.eqb c DQUOTE
      then splitFrom (negb inq) (cell +:+ String c "") record s'
      else if negb inq && Ascii.eqb c COMMA
      then splitFrom false "" (record ++ [cell]) s'
      else if negb inq && Ascii.eqb c LF
      then (record ++ [cell]) :: splitFrom false "" [] s'
      else splitFrom inq (cell +:+ String c "") record s'
  end.

Definition splitCSV (s : string) : list (list string) := splitFrom false "" [] s.

(** The text of a quoted cell after its opening quote: up to the closing
    quote, which must end the cell, with each doubled quote read as one. *)
Fixpoint unquote (s : string) : option string :=
  match s with
  | EmptyString => None
  | String c s' =>
      if Ascii.eqb c DQUOTE
      then match s' with
           | EmptyString => Some ""
           | String c' s'' =>
               if Ascii.eqb c' DQUOTE
               then option_map (String DQUOTE) (unquote s'')
               else None
           end
      else option_map (String c) (unquote s')
  end.

(** The text a cell stands for. *)
Definition readCell (cell : string) : option string :=
  match cell with
  | EmptyString => Some ""
  | String c rest => if Ascii.eqb c DQUOTE then unquote rest else Some cell
  end.

(** The reader stays clear of cell and record ends while going through
    [w], and is outside quotes after it. *)
Fixpoint balanced (inq : bool) (w : string) : bool :=
  match w with
  | EmptyString => negb inq
  | String c w' =>
      if Ascii.eqb c DQUOTE then balanced (negb inq) w'
      else if negb inq && (Ascii.eqb c COMMA || Ascii.eqb c LF) then false
      else balanced inq w'
  end.

(** The seven cells of an expanded row, in the order of its keys. *)
Definition expandedCells (r : ExpandedRow) : list string :=
  [ esc (VNum (Slot_ID r)); esc (VStr (Start_Time r)); esc (VStr (End_Time r));
    esc (VStr (Day r)); esc (VStr (Gender r)); esc (VNum (Capacity r));
    esc (VStr (Date r)) ].

(** What holds of the loop of [loadMockBookings] after every round, for
    rows taken from [pick]: the counter is one more than the size of the
    sample, the sample has at most 201 entries (at most 200 while the loop
    goes on), and entry number [k] was built with counter [k + 1] from a
    row of [pick] whose capacity is not [<= 0], with 1 to 5 seats. *)
Definition mockInvariant (random : nat -> Draw) (now : string)
    (pick : list ExpandedRow) (st : MockLoop) : Prop :=
  let '(sample, i, _, stopped) := st in
  i = Z.of_nat (length sample) + 1
  /\ (length sample <= 201)%nat
  /\ (stopped = false -> (length sample <= 200)%nat)
  /\ forall k b, sample !! k = Some b ->
       exists r seats,
         In r pick /\ le0 (Capacity r) = false /\ 1 <= seats <= 5
         /\ b = mockBooking now (Z.of_nat k + 1) seats r.

(** *** The calendar within one 400-year cycle

    The two calendar functions work on the position in a cycle of 400
    years that starts on a first of March: [doeOf] is the day of the cycle
    of a date, [civilOfDoe] the date of a day of the cycle. *)

Definition doeOf (yoe m d : Z) : Z :=
  let mp := if 2 <? m then m - 3 else m + 9 in
  yoe * 365 + yoe / 4 - yoe / 100 + ((153 * mp + 2) / 5 + d - 1).

Definition civilOfDoe (doe : Z) : Z * Z * Z :=
  let yoe := (doe - doe / 1460 + doe / 36524 - doe / 146096) / 365 in
  let doy := doe - (365 * yoe + yoe / 4 - yoe / 100) in
  let mp := (5 * doy + 2) / 153 in
  let d := doy - (153 * mp + 2) / 5 + 1 in
  let m := if mp <? 10 then mp + 3 else mp - 9 in
  (yoe, m, d).

(** The day of the cycle is in range and leads back to the date. *)
Definition cycleCheck (yoe m d : Z) : bool :=
  let doe := doeOf yoe m d in
  (0 <=? doe) && (doe <? 146097)
  && match civilOfDoe doe with
     | (yoe2, m2, d2) => (yoe2 =? yoe) && (m2 =? m) && (d2 =? d)
     end.

(** [pad w n] has [w] characters, all digits, and reads back as [n]. *)
Definition padCheck (w : nat) (n : Z) : bool :=
  (String.length (pad w n) =? w)%nat
  && match digits (pad w n) with
     | Some k => k =? n
     | None => false
     end.

(** The text [YYYY-MM-DD] of a civil date. *)
Definition isoText (y m d : Z) : string :=
  pad 4 y +:+ "-" +:+ pad 2 m +:+ "-" +:+ pad 2 d.

(** ** Sample data *)

Module Examples.

(** A template that recurs every day. *)
Definition everyDay : SlotRow :=
  {| Slot_ID := Fin 1; Start_Time := "08:00"; End_Time := "09:00";
     Day := "All"; Gender := "Men"; Capacity := Fin 10 |}.

(** Riyadh: UTC+3, no daylight saving. *)
Definition riyadh : Z := 180.

(** One double quote; one line feed; one carriage return. *)
Definition q : string := String DQUOTE EmptyString.
Definition nl : string := String LF EmptyString.
Definition cr : string := String CR EmptyString.

(** An expanded row of the given date, slot, gender and capacity. *)
Definition rowOf (date : string) (slotId : number) (g : string) (cap : Z)
  : ExpandedRow :=
  {| slot := {| Slot_ID := slotId; Start_Time := "08:00"; End_Time := "09:00";
                Day := "All"; Gender := g; Capacity := Fin cap |};
     Date := date |}.

(** A session with both dates chosen, a file picked, and one row left
    from an earlier preview. *)
Definition session (file : File) : State :=
  {| fromDate := "2024-01-01"; toDate := "2024-01-07";
     excelFile := Some file; loading := false;
     imported := [rowOf "2023-06-01" (Fin 7) "Women" 4];
     bookings := []; alerts := []; errors := [] |}.

(** A sheet with the six expected column names and no data row. *)
Definition headerOnly : Sheet :=
  {| headerRow := ["Slot_ID"; "Start_Time"; "End_Time"; "Day"; "Gender"; "Capacity"];
     dataRows := [] |}.

(** [Number(s)] restricted to plain decimal integers. *)
Definition decimal (s : string) : number :=
  match NilZero.int_of_string s with
  | Some d => Fin (Z.of_int d)
  | None => NaN
  end.

(** A booking with the given status and seats. *)
Definition booking (st : Booking.Status) (seats : Z) : Booking.Row :=
  {| Booking.Booking_ID := "B00001"; Booking.Date := "2024-01-01";
     Booking.Slot_ID := Fin 1; Booking.Start_Time := "08:00";
     Booking.End_Time := "09:00"; Booking.Gender := "Men";
     Booking.Seats_Booked := Fin seats; Booking.Pilgrim_Name := "Ahmed A.";
     Booking.Nationality := "KSA"; Booking.Pilgrim_ID := "P100001";
     Booking.Group := None; Booking.Status_ := st;
     Booking.Created_At := "2024-01-01T00:00:00.000Z" |}.

End Examples.

Module Fixtures.

(** A sheet with the six columns and two templates of slot 1: Men every
    day, Women on Mondays. *)
Definition twoTemplates : Sheet :=
  {| headerRow := ["Slot_ID"; "Start_Time"; "End_Time"; "Day"; "Gender"; "Capacity"];
     dataRows := [[VNum (Fin 1); VStr "08:00"; VStr "09:00"; VStr "All";
                   VStr "Men"; VNum (Fin 3)];
                  [VNum (Fin 1); VStr "08:00"; VStr "09:00"; VStr "Monday";
                   VStr "Women"; VNum (Fin 2)]] |}.

(** Random values that never skip a row and always give three seats. *)
Definition steady (n : nat) : Draw := {| below008 := false; floorTimes4 := 2 |}.

End Fixtures.

(** * Properties *)

(** ** The date loop *)

Lemma dateRange_step d to :
  dateRange d to = if Z_le_gt_dec d to then d :: dateRange (nextDay d) to else [].
Proof. rewrite dateRange_equation_1. destruct (Z_le_gt_dec d to); reflexivity. Qed.

Lemma dateRange_empty d to : to < d -> dateRange d to = [].
Proof.
  intros H. rewrite dateRange_step. destruct (Z_le_gt_dec d to); [lia | reflexivity].
Qed.

Lemma dayStart_succ tz day : nextDay (dayStart tz day) = dayStart tz (day + 1).
Proof. unfold nextDay, dayStart. ring. Qed.

Lemma dayStart_le tz a b : dayStart tz a <= dayStart tz b <-> a <= b.
Proof. unfold dayStart, msPerDay. lia. Qed.

Lemma dateRange_days tz n : forall a b,
  b - a + 1 = Z.of_nat n ->
  dateRange (dayStart tz a) (dayStart tz b) = map (dayStart tz) (daysFromTo a b).
Proof.
  induction n as [|n IH]; intros a b Hn; unfold daysFromTo.
  - rewrite dateRange_empty by (apply Z.lt_nge; rewrite dayStart_le; lia).
    rewrite Hn. reflexivity.
  - rewrite dateRange_step.
    destruct (Z_le_gt_dec _ _) as [_|Hgt].
    + rewrite seqZ_cons by lia. cbn [map]. f_equal.
      rewrite dayStart_succ, (IH (a + 1) b) by lia.
      unfold daysFromTo. do 2 f_equal; lia.
    + exfalso. apply Z.gt_lt in Hgt. apply Z.lt_nge in Hgt. apply Hgt.
      apply dayStart_le. lia.
Qed.

Lemma dateRange_daysFromTo tz a b :
  dateRange (dayStart tz a) (dayStart tz b) = map (dayStart tz) (daysFromTo a b).
Proof.
  destruct (Z_le_gt_dec a b) as [Hle|Hgt].
  - apply (dateRange_days tz (Z.to_nat (b - a + 1))). lia.
  - rewrite dateRange_empty by (apply Z.lt_nge; rewrite dayStart_le; lia).
    unfold daysFromTo. rewrite seqZ_nil by lia. reflexivity.
Qed.


(** ** The expansion loops *)

Lemma push_loop (wd : string) (stamp : SlotRow -> ExpandedRow) norm : forall acc,
  fold_left (fun expanded r => if dayMatches wd r then expanded ++ [stamp r] else expanded)
            norm acc
  = acc ++ map stamp (List.filter (dayMatches wd) norm).
Proof.
  induction norm as [|r norm IH]; intros acc; cbn [fold_left List.filter map].
  - now rewrite app_nil_r.
  - rewrite IH. destruct (dayMatches wd r); cbn [map].
    + now rewrite <- app_assoc.
    + reflexivity.
Qed.

Lemma expand_flat_map tz norm from to :
  expand tz norm from to =
  flat_map (fun d => map (fun r => {| slot := r; Date := fmtDate d |})
                         (List.filter (dayMatches (weekdayName tz d)) norm))
           (dateRange from to).
Proof.
  unfold expand. generalize (dateRange from to) as ds.
  assert (G : forall ds acc,
    fold_left (fun expanded d =>
       fold_left (fun expanded r =>
          if dayMatches (weekdayName tz d) r
          then expanded ++ [{| slot := r; Date := fmtDate d |}] else expanded)
         norm expanded) ds acc
    = acc ++ flat_map (fun d => map (fun r => {| slot := r; Date := fmtDate d |})
                         (List.filter (dayMatches (weekdayName tz d)) norm)) ds).
  { induction ds as [|d ds IH]; intros acc; cbn [fold_left flat_map].
    - now rewrite app_nil_r.
    - rewrite IH, (push_loop _ (fun r => {| slot := r; Date := fmtDate d |})).
      now rewrite <- app_assoc. }
  intros ds. apply (G ds []).
Qed.


Lemma fmtDate_dayStart_west tz day :
  -1440 < tz <= 0 -> fmtDate (dayStart tz day) = fmtDate (dayStart 0 day).
Proof.
  intros H. unfold fmtDate, dayStart. do 3 f_equal.
  rewrite Z.mul_0_l, Z.sub_0_r, Z.div_mul by (unfold msPerDay; lia).
  symmetry. apply (Z.div_unique _ _ _ (- tz * msPerMinute));
    unfold msPerDay, msPerMinute; lia.
Qed.

Lemma fmtDate_dayStart_east tz day :
  0 < tz <= 1440 -> fmtDate (dayStart tz day) = fmtDate (dayStart 0 (day - 1)).
Proof.
  intros H. unfold fmtDate, dayStart. do 3 f_equal.
  rewrite Z.mul_0_l, Z.sub_0_r, Z.div_mul by (unfold msPerDay; lia).
  symmetry. apply (Z.div_unique _ _ _ (msPerDay - tz * msPerMinute));
    unfold msPerDay, msPerMinute; lia.
Qed.






(** C6. When [from] is after [to] the expansion is the empty list. *)
Theorem expand_from_after_to_is_empty tz norm from to :
  to < from -> expand tz norm from to = [].
Proof.
  intros H. rewrite expand_flat_map, dateRange_empty by exact H. reflexivity.
Qed.

Lemma expand_from_after_to_is_empty_witness :
  dayStart 180 19723 < dayStart 180 19725
  /\ expand 180 [Examples.everyDay] (dayStart 180 19725) (dayStart 180 19723) = [].
Proof.
  split.
  - reflexivity.
  - apply expand_from_after_to_is_empty. reflexivity.
Defined.

(** C1, evaluated where the code departs from it.  In a time zone east of
    Greenwich (here UTC+3) the range 2024-01-01..2024-01-01 with one
    every-day template gives the one expected row, but its [Date] is
    2023-12-31, the day before [from]: the loop runs over local midnights
    and [fmtDate] prints the UTC date of that instant. *)
Theorem expand_date_before_from_east_of_utc :
  expandRange Examples.riyadh [Examples.everyDay] "2024-01-01" "2024-01-01"
  = [ {| slot := Examples.everyDay; Date := "2023-12-31" |} ]
  /\ String.compare "2023-12-31" "2024-01-01" = Lt.
Proof. split; vm_compute; reflexivity. Qed.

(** ** Keys of the conflict table *)

Lemma append_nil (b : string) : "" +:+ b = b.
Proof. reflexivity. Qed.

Lemma append_cons c (a b : string) : String c a +:+ b = String c (a +:+ b).
Proof. reflexivity. Qed.

(** [String.append] does not unfold under [simpl]; push it inwards by
    rewriting. *)
Ltac push_append :=
  repeat (rewrite append_cons in * || rewrite append_nil in * ).

Lemma test_app cls a b : test cls (a +:+ b) = test cls a || test cls b.
Proof.
  induction a as [|c a IH]; push_append; cbn [test]; [reflexivity|].
  now rewrite IH, orb_assoc.
Qed.

Lemma uint_chars c d :
  isNumChar c = false -> test (Ascii.eqb c) (NilEmpty.string_of_uint d) = false.
Proof.
  intros Hc. unfold isNumChar in Hc. cbn [existsb] in Hc.
  repeat (apply orb_false_elim in Hc as [? Hc]).
  induction d; cbn [NilEmpty.string_of_uint test]; try reflexivity;
    rewrite IHd, orb_false_r; assumption.
Qed.

Lemma showZ_chars c z : isNumChar c = false -> test (Ascii.eqb c) (showZ z) = false.
Proof.
  intros Hc. pose proof (uint_chars c) as Hu. specialize (fun d => Hu d Hc).
  assert (Hm : Ascii.eqb c "-" = false).
  { unfold isNumChar in Hc. now apply orb_false_elim in Hc as [? _]. }
  assert (H0 : Ascii.eqb c "0" = false).
  { unfold isNumChar in Hc. cbn [existsb] in Hc.
    apply orb_false_elim in Hc as [_ Hc]. now apply orb_false_elim in Hc as [? _]. }
  unfold showZ, NilZero.string_of_int, NilZero.string_of_uint.
  destruct (Z.to_int z) as [d|d]; destruct d; cbn [test];
    rewrite ?Hm, ?H0; cbn [orb]; try reflexivity; apply (Hu (_ _)).
Qed.

Lemma showZ_inj x y : showZ x = showZ y -> x = y.
Proof.
  unfold showZ. intros H.
  assert (Hnz : forall z, Z.to_int z <> Decimal.Pos Decimal.Nil
                          /\ Z.to_int z <> Decimal.Neg Decimal.Nil).
  { intros [|p|p]; cbn; split; try discriminate;
      intros [= E]; exact (Unsigned.to_uint_nonnil p E). }
  apply (f_equal NilZero.int_of_string) in H.
  rewrite !NilZero.isi in H by apply Hnz.
  injection H as H. apply (f_equal Z.of_int) in H.
  now rewrite !DecimalZ.of_to in H.
Qed.

Lemma showNumber_no_bar n : test (Ascii.eqb "|") (showNumber n) = false.
Proof. destruct n as [z|]; [apply showZ_chars|]; reflexivity. Qed.

Lemma showNumber_inj a b : showNumber a = showNumber b -> a = b.
Proof.
  destruct a as [x|], b as [y|]; cbn [showNumber]; intros H.
  - f_equal. now apply showZ_inj.
  - pose proof (showZ_chars "N" x eq_refl) as C. rewrite H in C. discriminate C.
  - pose proof (showZ_chars "N" y eq_refl) as C. rewrite <- H in C. discriminate C.
  - reflexivity.
Qed.

Lemma split_at_bar : forall d d' s s',
  test (Ascii.eqb "|") s = false -> test (Ascii.eqb "|") s' = false ->
  d +:+ "|" +:+ s = d' +:+ "|" +:+ s' -> d = d' /\ s = s'.
Proof.
  induction d as [|c d IH]; intros [|c' d'] s s' Hs Hs' E; push_append.
  - injection E as E. now split.
  - injection E as Ec E. subst s.
    rewrite test_app in Hs. cbn [test] in Hs.
    rewrite orb_true_r in Hs. discriminate.
  - injection E as Ec E. subst s'.
    rewrite test_app in Hs'. cbn [test] in Hs'.
    rewrite orb_true_r in Hs'. discriminate.
  - injection E as Ec E. subst c'.
    destruct (IH d' s s' Hs Hs' E) as [-> ->]. now split.
Qed.

Lemma key_inj d s d' s' :
  Conflict.key d s = Conflict.key d' s' <-> d = d' /\ s = s'.
Proof.
  split.
  - unfold Conflict.key. intros E.
    apply split_at_bar in E; try apply showNumber_no_bar.
    destruct E as [-> E]. split; [reflexivity|]. now apply showNumber_inj.
  - now intros [-> ->].
Qed.

(** ** The conflict table *)

Lemma conflicts_snoc l r :
  Conflict.conflicts (l ++ [r]) = Conflict.step (Conflict.conflicts l) r.
Proof. unfold Conflict.conflicts. now rewrite fold_left_app. Qed.

Lemma countPositive_snoc k g l r :
  countPositive k g (l ++ [r])
  = countPositive k g l
    + (if String.eqb (Conflict.key (Date r) (Slot_ID r)) k && positiveOf g r
       then 1 else 0).
Proof.
  unfold countPositive. rewrite List.filter_app, length_app. cbn [List.filter].
  destruct (_ && _); cbn [length]; lia.
Qed.

Lemma countPositive_unused k g l : keyUsed k l = false -> countPositive k g l = 0.
Proof.
  unfold keyUsed, countPositive. induction l as [|r l IH]; cbn [existsb List.filter]; [reflexivity|].
  intros H. apply orb_false_elim in H as [Hr Hl]. rewrite Hr. cbn [andb]. now apply IH.
Qed.

Lemma keyUsed_snoc k l r :
  keyUsed k (l ++ [r])
  = keyUsed k l || String.eqb (Conflict.key (Date r) (Slot_ID r)) k.
Proof. unfold keyUsed. rewrite existsb_app. cbn [existsb]. now rewrite orb_false_r. Qed.

Lemma default_counts k l :
  default {| Conflict.men := 0; Conflict.women := 0 |}
    (if keyUsed k l
     then Some {| Conflict.men := countPositive k "Men" l;
                  Conflict.women := countPositive k "Women" l |}
     else None)
  = {| Conflict.men := countPositive k "Men" l;
       Conflict.women := countPositive k "Women" l |}.
Proof.
  destruct (keyUsed k l) eqn:U; [reflexivity|].
  cbn [default]. now rewrite !countPositive_unused by exact U.
Qed.

Lemma conflicts_lookup rows k :
  Conflict.conflicts rows !! k
  = if keyUsed k rows
    then Some {| Conflict.men := countPositive k "Men" rows;
                 Conflict.women := countPositive k "Women" rows |}
    else None.
Proof.
  induction rows as [|r l IH] using rev_ind.
  - reflexivity.
  - rewrite conflicts_snoc, !countPositive_snoc, keyUsed_snoc. unfold Conflict.step.
    destruct (String.eqb_spec (Conflict.key (Date r) (Slot_ID r)) k) as [E|Hne].
    + rewrite E, lookup_insert_eq, orb_true_r, IH, default_counts.
      cbn [andb]. unfold positiveOf.
      destruct (String.eqb_spec (Gender r) "Men") as [Em|Em];
        destruct (String.eqb_spec (Gender r) "Women") as [Ew|Ew];
        try (rewrite Em in Ew; discriminate Ew);
        cbn [andb Conflict.men Conflict.women]; destruct (gt0 (Capacity r));
        do 2 f_equal; lia.
    + rewrite lookup_insert_ne by exact Hne. rewrite IH, orb_false_r. cbn [andb].
      now rewrite !Z.add_0_r.
Qed.

Lemma bad_spec rows k v :
  In (k, v) (Conflict.bad rows)
  <-> Conflict.conflicts rows !! k = Some v /\ Conflict.isBad v = true.
Proof.
  unfold Conflict.bad. rewrite List.filter_In, <- list_elem_of_In, elem_of_map_to_list.
  reflexivity.
Qed.

Lemma countPositive_pos k g rows :
  0 < countPositive k g rows
  <-> exists r, In r rows /\ Conflict.key (Date r) (Slot_ID r) = k
                /\ Gender r = g /\ gt0 (Capacity r) = true.
Proof.
  unfold countPositive. split.
  - intros H. destruct (List.filter _ rows) as [|r l] eqn:F; [cbn in H; lia|].
    assert (I : In r (List.filter
      (fun r => String.eqb (Conflict.key (Date r) (Slot_ID r)) k && positiveOf g r) rows))
      by (rewrite F; now left).
    apply List.filter_In in I as [I T]. unfold positiveOf in T.
    apply andb_prop in T as [Tk T]. apply andb_prop in T as [Tg Tc].
    exists r. repeat split; try assumption; now apply String.eqb_eq.
  - intros (r & I & Ek & Eg & Ec).
    assert (J : In r (List.filter
      (fun r => String.eqb (Conflict.key (Date r) (Slot_ID r)) k && positiveOf g r) rows)).
    { apply List.filter_In. split; [exact I|]. unfold positiveOf.
      rewrite Ec, andb_true_r. apply andb_true_intro.
      split; now apply String.eqb_eq. }
    destruct (List.filter _ rows); [destruct J | cbn [length]; lia].
Qed.

Lemma flagged_iff_counts rows date slotId :
  flagged rows date slotId
  <-> 0 < countPositive (Conflict.key date slotId) "Men" rows
      /\ 0 < countPositive (Conflict.key date slotId) "Women" rows.
Proof.
  unfold flagged. split.
  - intros [v Hv]. apply bad_spec in Hv as [L B]. rewrite conflicts_lookup in L.
    destruct (keyUsed _ rows); [|discriminate L]. injection L as <-.
    unfold Conflict.isBad in B. cbn [Conflict.men Conflict.women] in B.
    apply andb_prop in B as [Bm Bw]. split; now apply Z.ltb_lt.
  - intros [Hm Hw]. eexists. apply bad_spec. rewrite conflicts_lookup.
    destruct (keyUsed _ rows) eqn:U.
    + split; [reflexivity|]. unfold Conflict.isBad. cbn [Conflict.men Conflict.women].
      apply andb_true_intro. split; now apply Z.ltb_lt.
    + rewrite countPositive_unused in Hm by exact U. lia.
Qed.

(** C4. A (date, slot id) group is reported exactly when it holds a Men
    row with capacity above zero and a Women row with capacity above zero.
    One Men row of capacity 3 with one Women row of capacity 2 on the same
    date and slot is reported; with Women capacity 0 it is not. *)
Theorem conflict_flagged_iff_both_positive :
  (forall rows date slotId,
     flagged rows date slotId
     <-> (exists r, In r rows /\ inGroup date slotId r
                    /\ Gender r = "Men" /\ gt0 (Capacity r) = true)
         /\ (exists r, In r rows /\ inGroup date slotId r
                       /\ Gender r = "Women" /\ gt0 (Capacity r) = true))
  /\ (forall date slotId,
        flagged [Examples.rowOf date slotId "Men" 3;
                 Examples.rowOf date slotId "Women" 2] date slotId)
  /\ (forall date slotId,
        ~ flagged [Examples.rowOf date slotId "Men" 3;
                   Examples.rowOf date slotId "Women" 0] date slotId).
Proof.
  assert (G : forall rows date slotId,
     flagged rows date slotId
     <-> (exists r, In r rows /\ inGroup date slotId r
                    /\ Gender r = "Men" /\ gt0 (Capacity r) = true)
         /\ (exists r, In r rows /\ inGroup date slotId r
                       /\ Gender r = "Women" /\ gt0 (Capacity r) = true)).
  { intros rows date slotId. rewrite flagged_iff_counts, !countPositive_pos.
    unfold inGroup. split; intros [(m & Im & Km & Hm) (w & Iw & Kw & Hw)]; split.
    - exists m. apply key_inj in Km. tauto.
    - exists w. apply key_inj in Kw. tauto.
    - exists m. rewrite key_inj. tauto.
    - exists w. rewrite key_inj. tauto. }
  split; [exact G|]. split; intros date slotId.
  - apply G. split.
    + exists (Examples.rowOf date slotId "Men" 3).
      split; [now left | repeat split].
    + exists (Examples.rowOf date slotId "Women" 2).
      split; [right; now left | repeat split].
  - intros F. apply G in F as [_ (w & Iw & _ & Gw & Cw)].
    destruct Iw as [<-|[<-|[]]]; cbn in Gw, Cw; discriminate.
Qed.

Lemma conflict_flagged_iff_both_positive_witness :
  flagged [Examples.rowOf "2024-01-01" (Fin 1) "Men" 3;
           Examples.rowOf "2024-01-02" (Fin 1) "Women" 9;
           Examples.rowOf "2024-01-01" (Fin 1) "Women" 2] "2024-01-01" (Fin 1).
Proof.
  apply (proj1 conflict_flagged_iff_both_positive). split.
  - exists (Examples.rowOf "2024-01-01" (Fin 1) "Men" 3).
    split; [now left | repeat split].
  - exists (Examples.rowOf "2024-01-01" (Fin 1) "Women" 2).
    split; [right; right; now left | repeat split].
Defined.

(** ** The widgets *)

Lemma nadd_assoc a b c : nadd a (nadd b c) = nadd (nadd a b) c.
Proof. destruct a, b, c; cbn; try reflexivity. f_equal. lia. Qed.

Lemma nadd_0_r a : nadd a (Fin 0) = a.
Proof. destruct a; cbn; [f_equal; lia | reflexivity]. Qed.

Lemma nadd_0_l a : nadd (Fin 0) a = a.
Proof. destruct a; reflexivity. Qed.

Lemma sum_loop {A} (f : A -> number) l : forall acc,
  fold_left (fun s x => nadd s (f x)) l acc = nadd acc (nsum (map f l)).
Proof.
  induction l as [|x l IH]; intros acc; cbn [fold_left map nsum fold_right].
  - now rewrite nadd_0_r.
  - rewrite IH. fold (nsum (map f l)). now rewrite nadd_assoc.
Qed.

Lemma capacity_loop (rows : list ExpandedRow) : forall total men women,
  fold_left
    (fun '(total, men, women) (r : ExpandedRow) =>
       let total := nadd total (Capacity r) in
       if String.eqb (Gender r) "Men"
       then (total, nadd men (Capacity r), women)
       else (total, men, nadd women (Capacity r)))
    rows (total, men, women)
  = (nadd total (nsum (map (fun r : ExpandedRow => Capacity r) rows)),
     nadd men (capacityOf "Men" rows),
     nadd women (nsum (map (fun r : ExpandedRow => Capacity r)
        (List.filter (fun r : ExpandedRow => negb (String.eqb (Gender r) "Men")) rows)))).
Proof.
  unfold capacityOf.
  induction rows as [|r rows IH]; intros total men women;
    cbn [fold_left map List.filter nsum fold_right].
  - now rewrite !nadd_0_r.
  - destruct (String.eqb (Gender r) "Men"); rewrite IH;
      cbn [negb map nsum fold_right]; now rewrite !nadd_assoc.
Qed.

Lemma totals_spec imported bookings :
  Widgets.totals imported bookings
  = {| Widgets.total := nsum (map (fun r : ExpandedRow => Capacity r) imported);
       Widgets.men := capacityOf "Men" imported;
       Widgets.women := nsum (map (fun r : ExpandedRow => Capacity r)
          (List.filter (fun r : ExpandedRow => negb (String.eqb (Gender r) "Men")) imported));
       Widgets.booked := seatsNotCancelled bookings |}.
Proof.
  unfold Widgets.totals. rewrite capacity_loop, !nadd_0_l. f_equal.
  rewrite (sum_loop (fun b => if Booking.notCancelled (Booking.Status_ b)
                              then Booking.Seats_Booked b else Fin 0)), nadd_0_l.
  unfold seatsNotCancelled.
  induction bookings as [|b bs IH]; cbn [map List.filter nsum fold_right]; [reflexivity|].
  fold (nsum (map (fun b => if Booking.notCancelled (Booking.Status_ b)
                            then Booking.Seats_Booked b else Fin 0) bs)).
  rewrite IH.
  destruct (Booking.Status_ b); case_bool_decide; try congruence;
    cbn [Booking.notCancelled map nsum fold_right]; now rewrite ?nadd_0_l.
Qed.

(** C8. The booked total is the sum of the seats of the bookings whose
    status is not Cancelled; seats 3 (Booked), 2 (Cancelled) and 4
    (Checked-in) give 7. *)
Theorem booked_sums_uncancelled_seats :
  (forall imported bookings,
     Widgets.booked (Widgets.totals imported bookings) = seatsNotCancelled bookings)
  /\ (forall imported,
        Widgets.booked (Widgets.totals imported
          [Examples.booking Booking.Booked 3;
           Examples.booking Booking.Cancelled 2;
           Examples.booking Booking.Checked_in 4]) = Fin 7).
Proof.
  split; intros; rewrite totals_spec; reflexivity.
Qed.

(** C5, evaluated where the code departs from it.  A single row whose
    gender is neither Men nor Women, with capacity 5: the sum of capacity
    over Women rows is 0, yet the women total is 5, because the loop adds
    every row that is not Men to the women total.  Men total and overall
    total are as expected (0 and 5). *)
Theorem other_gender_lands_in_women_total :
  let rows := [Examples.rowOf "2024-01-01" (Fin 1) "Other" 5] in
  Widgets.women (Widgets.totals rows []) = Fin 5
  /\ capacityOf "Women" rows = Fin 0
  /\ Widgets.men (Widgets.totals rows []) = Fin 0
  /\ Widgets.total (Widgets.totals rows []) = Fin 5.
Proof. repeat split. Qed.

(** ** The CSV serializer *)

Lemma chars_cons c s : chars (String c s) = c :: chars s.
Proof. reflexivity. Qed.

Lemma chars_app a b : chars (a +:+ b) = chars a ++ chars b.
Proof.
  induction a as [|c a IH]; push_append; [reflexivity|].
  rewrite !chars_cons, IH. reflexivity.
Qed.

Lemma chars_replaceAll s :
  chars (replaceAll DQUOTE (String DQUOTE (String DQUOTE "")) s)
  = flat_map doubleQuote (chars s).
Proof.
  induction s as [|c s IH]; cbn [replaceAll]; [reflexivity|].
  rewrite (chars_cons c s). cbn [flat_map]. rewrite <- IH.
  unfold doubleQuote. destruct (Ascii.eqb c DQUOTE).
  - now rewrite chars_app.
  - now rewrite chars_cons.
Qed.

Lemma test_needsQuotes s : test inClass s = true <-> needsQuotes s.
Proof.
  unfold needsQuotes. induction s as [|c s IH]; cbn [test].
  - split; [discriminate | intros (c & [] & _)].
  - rewrite chars_cons, orb_true_iff, IH. unfold inClass. rewrite !orb_true_iff, !Ascii.eqb_eq.
    split.
    + intros [H|(c' & I & H)].
      * exists c. split; [now left | tauto].
      * exists c'. split; [now right | exact H].
    + intros (c' & [<-|I] & H).
      * left. tauto.
      * right. exists c'. now split.
Qed.

Lemma flat_map_doubleQuote_length l : (length l <= length (flat_map doubleQuote l))%nat.
Proof.
  induction l as [|c l IH]; [reflexivity|].
  change (flat_map doubleQuote (c :: l)) with (doubleQuote c ++ flat_map doubleQuote l).
  rewrite length_app. unfold doubleQuote at 1.
  destruct (Ascii.eqb c DQUOTE); simpl; lia.
Qed.

Lemma chars_inj a b : chars a = chars b -> a = b.
Proof.
  intros H. apply (f_equal string_of_list_ascii) in H.
  unfold chars in H. now rewrite !string_of_list_ascii_of_string in H.
Qed.

Lemma esc_quoted v :
  test inClass (ToString (nullish v (VStr ""))) = true ->
  chars (esc v) = quoted (ToString (nullish v (VStr ""))).
Proof.
  intros T. unfold esc, quoted. rewrite T.
  now rewrite chars_cons, chars_app, chars_replaceAll.
Qed.

Lemma esc_plain v :
  test inClass (ToString (nullish v (VStr ""))) = false ->
  esc v = ToString (nullish v (VStr "")).
Proof. intros T. unfold esc. now rewrite T. Qed.

Lemma push_lines {A} (f : A -> string) rows : forall lines,
  fold_left (fun lines r => lines ++ [f r]) rows lines = lines ++ map f rows.
Proof.
  induction rows as [|r rows IH]; intros lines; cbn [fold_left map].
  - now rewrite app_nil_r.
  - now rewrite IH, <- app_assoc.
Qed.

Lemma buildCSV_lines r0 rest :
  buildCSV (r0 :: rest)
  = join (String LF "") (join "," (keys r0) :: map (csvLine (keys r0)) (r0 :: rest)).
Proof. unfold buildCSV. now rewrite (push_lines (csvLine (keys r0))). Qed.



Lemma chars_ne_quoted s : chars s <> quoted s.
Proof.
  intros E. apply (f_equal (@length ascii)) in E. unfold quoted in E.
  cbn [length] in E. rewrite length_app in E. cbn [length] in E.
  pose proof (flat_map_doubleQuote_length (chars s)). lia.
Qed.

(** C2. A cell of a data line is the field's text between double quotes,
    with every double quote of the text doubled, exactly when the text
    contains a comma, a double quote, a line feed or a carriage return;
    otherwise the cell is the text itself.  The cells in question are the
    ones [buildCSV] writes: each data line is the comma-joined list of
    [esc] applied to the row's value in each header column. *)
Theorem esc_quotes_iff_special_character :
  (forall v, let s := ToString (nullish v (VStr "")) in
     (chars (esc v) = quoted s <-> needsQuotes s)
     /\ (esc v = s <-> ~ needsQuotes s))
  /\ (forall r0 rest,
        buildCSV (r0 :: rest)
        = join Examples.nl
            (join "," (keys r0)
             :: map (fun r => join "," (map (fun h => esc (get r h)) (keys r0)))
                    (r0 :: rest)))
  /\ esc (VStr "needs,comma") = Examples.q +:+ "needs,comma" +:+ Examples.q
  /\ esc (VStr ("He said " +:+ Examples.q +:+ "hi" +:+ Examples.q))
     = Examples.q +:+ "He said " +:+ Examples.q +:+ Examples.q +:+ "hi"
       +:+ Examples.q +:+ Examples.q +:+ Examples.q
  /\ esc (VStr ("line1" +:+ Examples.nl +:+ "line2"))
     = Examples.q +:+ "line1" +:+ Examples.nl +:+ "line2" +:+ Examples.q
  /\ esc (VStr ("crlf line1" +:+ Examples.cr +:+ Examples.nl +:+ "line2"))
     = Examples.q +:+ "crlf line1" +:+ Examples.cr +:+ Examples.nl +:+ "line2"
       +:+ Examples.q
  /\ esc (VStr ("combo, " +:+ Examples.q +:+ "quote" +:+ Examples.q))
     = Examples.q +:+ "combo, " +:+ Examples.q +:+ Examples.q +:+ "quote"
       +:+ Examples.q +:+ Examples.q +:+ Examples.q.
Proof.
  split; [|split; [exact buildCSV_lines | repeat split]].
  intros v s. subst s.
  destruct (test inClass (ToString (nullish v (VStr "")))) eqn:T.
  - assert (N : needsQuotes (ToString (nullish v (VStr ""))))
      by now apply test_needsQuotes.
    pose proof (esc_quoted v T) as Q. split; split; try tauto.
    intros E _. rewrite E in Q. exact (chars_ne_quoted _ Q).
  - assert (N : ~ needsQuotes (ToString (nullish v (VStr "")))).
    { rewrite <- test_needsQuotes, T. discriminate. }
    pose proof (esc_plain v T) as P. split; split; try tauto.
    intros Q. rewrite P in Q. destruct (chars_ne_quoted _ Q).
Qed.

Lemma esc_quotes_iff_special_character_witness :
  needsQuotes "a,b" /\ chars (esc (VStr "a,b")) = quoted "a,b".
Proof.
  assert (N : needsQuotes "a,b").
  { exists COMMA. split; [right; now left | now left]. }
  split; [exact N|].
  apply (proj2 (proj1 (proj1 esc_quotes_iff_special_character (VStr "a,b")))).
  exact N.
Defined.



(** ** Validate and preview *)

Lemma includes_In xs x : includes xs x = true <-> In x xs.
Proof.
  unfold includes. rewrite existsb_exists. split.
  - intros (y & I & E). apply String.eqb_eq in E. now subst.
  - intros I. exists x. split; [exact I | apply String.eqb_refl].
Qed.

Lemma headerOk_spec rows :
  headerOk rows = true <-> forall h, In h required -> In h (keys (hd [] rows)).
Proof.
  unfold headerOk. rewrite forallb_forall.
  split; intros H h I; apply includes_In; now apply H.
Qed.

Lemma previewBody_run tz S2N file from to st :
  previewBody tz S2N file from to st
  = match file with
    | inl e => (inl e, st)
    | inr ws =>
        if headerOk (sheet_to_json ws)
        then let expanded := expandRange tz (map (normRow S2N) (sheet_to_json ws)) from to in
             (inr tt, alert (previewMessage expanded) (setImported expanded st))
        else (inl invalidHeaders, st)
    end.
Proof.
  unfold previewBody, bind, throw, ret, modify.
  destruct file as [e|ws]; [reflexivity|].
  destruct (headerOk (sheet_to_json ws)); reflexivity.
Qed.

Lemma handler_run tz S2N st file :
  excelFile st = Some file -> fromDate st <> "" -> toDate st <> "" ->
  snd (handleValidatePreview tz S2N st)
  = match previewBody tz S2N file (fromDate st) (toDate st) (setLoading true st) with
    | (inl e, st1) => setLoading false (alert ("Error: " +:+ message e) (consoleError e st1))
    | (inr _, st1) => setLoading false st1
    end.
Proof.
  intros F Hf Ht. unfold handleValidatePreview. rewrite F.
  apply String.eqb_neq in Hf, Ht. rewrite Hf, Ht. cbn [orb].
  unfold bind at 1, modify at 1, tryFinally, tryCatch.
  destruct (previewBody tz S2N file (fromDate st) (toDate st) (setLoading true st))
    as [[e|[]] st1]; reflexivity.
Qed.

Lemma successful_preview_commits tz S2N st ws :
  excelFile st = Some (inr ws) -> fromDate st <> "" -> toDate st <> "" ->
  headerOk (sheet_to_json ws) = true ->
  imported (snd (handleValidatePreview tz S2N st))
  = expandRange tz (map (normRow S2N) (sheet_to_json ws)) (fromDate st) (toDate st).
Proof.
  intros F Hf Ht H.
  rewrite (handler_run tz S2N st _ F Hf Ht), previewBody_run, H. reflexivity.
Qed.

Lemma preview_without_inputs st tz S2N :
  excelFile st = None \/ fromDate st = "" \/ toDate st = "" ->
  handleValidatePreview tz S2N st
  = (inr tt, alert "Select From/To dates and upload an Excel file." st).
Proof.
  intros H. unfold handleValidatePreview, modify.
  destruct (excelFile st) as [file|]; [|reflexivity].
  destruct H as [H|[H|H]]; [discriminate H| |]; rewrite H; cbn [String.eqb orb];
    [reflexivity|]. now rewrite orb_true_r.
Qed.

(** C9. With a file picked and both dates set, the two ways the operation
    fails (reading or parsing the file throws; the header check fails)
    make the body of the [try] block throw, and whenever that body throws
    the imported rows after the action are the imported rows before it:
    the error is shown as an alert and the loading flag is cleared. *)
Theorem failed_preview_keeps_imported tz S2N st file :
  excelFile st = Some file -> fromDate st <> "" -> toDate st <> "" ->
  let run := previewBody tz S2N file (fromDate st) (toDate st) (setLoading true st) in
  let st' := snd (handleValidatePreview tz S2N st) in
  (forall e, file = inl e -> fst run = inl e)
  /\ (forall ws, file = inr ws -> headerOk (sheet_to_json ws) = false ->
        fst run = inl invalidHeaders)
  /\ (forall e, fst run = inl e ->
        imported st' = imported st
        /\ alerts st' = alerts st ++ ["Error: " +:+ message e]
        /\ loading st' = false).
Proof.
  intros F Hf Ht run st'. subst run st'.
  rewrite (handler_run tz S2N st file F Hf Ht), previewBody_run.
  split; [|split].
  - intros e ->. reflexivity.
  - intros ws -> H. now rewrite H.
  - intros e. destruct file as [e'|ws].
    + cbn [fst]. intros [= ->]. repeat split.
    + destruct (headerOk (sheet_to_json ws)); cbn [fst]; [discriminate|].
      intros [= <-]. repeat split.
Qed.

Lemma failed_preview_keeps_imported_witness :
  imported (snd (handleValidatePreview Examples.riyadh Examples.decimal
                   (Examples.session (inl (Error "File is password-protected")))))
  = [Examples.rowOf "2023-06-01" (Fin 7) "Women" 4].
Proof.
  apply (proj2 (proj2 (failed_preview_keeps_imported Examples.riyadh Examples.decimal
           (Examples.session (inl (Error "File is password-protected")))
           (inl (Error "File is password-protected"))
           eq_refl ltac:(discriminate) ltac:(discriminate)))
         (Error "File is password-protected")).
  reflexivity.
Defined.

(** C10. The header check looks at the keys of the first data row and at
    nothing else.  A sheet without data rows fails it whatever its first
    row holds, the six expected column names included, and the action
    ends with the invalid-headers alert and the imported rows untouched.
    When there is a first data row, the check passes exactly when that
    row's keys include all of Slot_ID, Start_Time, End_Time, Day, Gender
    and Capacity. *)
Theorem header_check_reads_first_data_row :
  (forall tz S2N st ws,
     excelFile st = Some (inr ws) -> fromDate st <> "" -> toDate st <> "" ->
     dataRows ws = [] ->
     let st' := snd (handleValidatePreview tz S2N st) in
     headerOk (sheet_to_json ws) = false
     /\ alerts st' = alerts st ++
          ["Error: Invalid headers. Expected: Slot_ID, Start_Time, End_Time, Day, Gender, Capacity"]
     /\ imported st' = imported st)
  /\ (forall r0 rest,
        headerOk (r0 :: rest) = true
        <-> forall h,
              In h ["Slot_ID"; "Start_Time"; "End_Time"; "Day"; "Gender"; "Capacity"] ->
              In h (keys r0)).
Proof.
  split.
  - intros tz S2N st ws F Hf Ht D st'. subst st'.
    assert (H : headerOk (sheet_to_json ws) = false).
    { unfold sheet_to_json. rewrite D. reflexivity. }
    rewrite (handler_run tz S2N st _ F Hf Ht), previewBody_run, H.
    repeat split; exact H.
  - intros r0 rest. apply (headerOk_spec (r0 :: rest)).
Qed.

Lemma header_check_reads_first_data_row_witness :
  alerts (snd (handleValidatePreview Examples.riyadh Examples.decimal
                 (Examples.session (inr Examples.headerOnly))))
  = ["Error: Invalid headers. Expected: Slot_ID, Start_Time, End_Time, Day, Gender, Capacity"].
Proof.
  apply (proj1 (proj2 (proj1 header_check_reads_first_data_row
           Examples.riyadh Examples.decimal
           (Examples.session (inr Examples.headerOnly)) Examples.headerOnly
           eq_refl ltac:(discriminate) ltac:(discriminate) eq_refl))).
Defined.

(** * Further properties *)

(** ** Dates of the loop *)



(** ** More on the expansion *)









(** ** More on the conflict table *)

(** X6. Two (date, slot id) pairs are stored under the same key only when
    they are the same pair, whatever the date text is (a bar inside it
    included): the rendered slot id never contains the separator. *)
Theorem conflict_key_unambiguous d s d' s' :
  Conflict.key d s = Conflict.key d' s' <-> d = d' /\ s = s'.
Proof. apply key_inj. Qed.

Lemma NoDup_fst_filter {A B} (f : A * B -> bool) (l : list (A * B)) :
  List.NoDup (map fst l) -> List.NoDup (map fst (List.filter f l)).
Proof.
  induction l as [|x l IH]; cbn [map List.filter]; intros N; [exact N|].
  apply NoDup_cons_iff in N as [Nx N].
  destruct (f x); cbn [map]; [|now apply IH].
  apply NoDup_cons_iff. split; [|now apply IH].
  intros I. apply Nx. apply in_map_iff in I as (y & E & I).
  apply List.filter_In in I as [I _]. apply in_map_iff. now exists y.
Qed.

(** X7. Every reported entry belongs to a key used by at least one row,
    no key is reported twice, and the two numbers kept with it are the
    numbers of Men rows and of Women rows of that key whose capacity is
    above zero (rows are counted, capacities are not added up). *)
Theorem bad_entries rows :
  List.NoDup (map fst (Conflict.bad rows))
  /\ (forall k v, In (k, v) (Conflict.bad rows) ->
        keyUsed k rows = true
        /\ Conflict.men v = countPositive k "Men" rows
        /\ Conflict.women v = countPositive k "Women" rows
        /\ 0 < Conflict.men v /\ 0 < Conflict.women v).
Proof.
  split.
  - unfold Conflict.bad. apply NoDup_fst_filter.
    apply NoDup_ListNoDup. apply (NoDup_fst_map_to_list (Conflict.conflicts rows)).
  - intros k v I. apply bad_spec in I as [L B]. rewrite conflicts_lookup in L.
    destruct (keyUsed k rows); [|discriminate L]. injection L as <-.
    unfold Conflict.isBad in B. apply andb_prop in B as [Bm Bw].
    apply Z.ltb_lt in Bm, Bw. cbn [Conflict.men Conflict.women] in *. tauto.
Qed.

Lemma bad_entries_witness :
  keyUsed "2024-01-01|1"
    [Examples.rowOf "2024-01-01" (Fin 1) "Men" 3;
     Examples.rowOf "2024-01-01" (Fin 1) "Women" 2] = true.
Proof.
  apply (proj2 (bad_entries _) "2024-01-01|1" {| Conflict.men := 1; Conflict.women := 1 |}).
  vm_compute. now left.
Defined.

Lemma keyUsed_perm k l l' : Permutation l l' -> keyUsed k l = keyUsed k l'.
Proof.
  unfold keyUsed. induction 1; cbn [existsb]; try congruence.
  rewrite !orb_assoc. f_equal. apply orb_comm.
Qed.

Lemma countPositive_perm k g l l' :
  Permutation l l' -> countPositive k g l = countPositive k g l'.
Proof.
  unfold countPositive. intros P. f_equal.
  induction P; cbn [List.filter]; try congruence.
  - destruct (_ && _); cbn [length]; congruence.
  - do 2 destruct (_ && _); reflexivity.
Qed.

(** X8. The outcome of the detection does not depend on the order of the
    rows: a reordered list gives the same table and the same number of
    reported conflicts. *)
Theorem conflicts_order_independent rows rows' :
  Permutation rows rows' ->
  Conflict.conflicts rows = Conflict.conflicts rows'
  /\ length (Conflict.bad rows) = length (Conflict.bad rows').
Proof.
  intros P.
  assert (E : Conflict.conflicts rows = Conflict.conflicts rows').
  { apply map_eq. intros k. rewrite !conflicts_lookup.
    now rewrite (keyUsed_perm k _ _ P), !(countPositive_perm k _ _ _ P). }
  split; [exact E|]. unfold Conflict.bad. now rewrite E.
Qed.

Lemma conflicts_order_independent_witness :
  length (Conflict.bad [Examples.rowOf "2024-01-01" (Fin 1) "Men" 3;
                        Examples.rowOf "2024-01-01" (Fin 1) "Women" 2])
  = length (Conflict.bad [Examples.rowOf "2024-01-01" (Fin 1) "Women" 2;
                          Examples.rowOf "2024-01-01" (Fin 1) "Men" 3]).
Proof.
  apply (proj2 (conflicts_order_independent _ _ (perm_swap _ _ []))).
Defined.

(** ** More on the widgets *)





(** ** Reading the CSV text back *)

Lemma append_nil_r (a : string) : a +:+ "" = a.
Proof. induction a as [|c a IH]; push_append; [reflexivity | now rewrite IH]. Qed.

Lemma append_assoc (a b c : string) : (a +:+ b) +:+ c = a +:+ (b +:+ c).
Proof. induction a as [|x a IH]; push_append; [reflexivity | now rewrite IH]. Qed.

Lemma unquote_doubled s :
  unquote (replaceAll DQUOTE (String DQUOTE (String DQUOTE "")) s +:+ String DQUOTE "")
  = Some s.
Proof.
  induction s as [|c s IH]; cbn [replaceAll]; push_append.
  - cbn [unquote]. now rewrite Ascii.eqb_refl.
  - destruct (Ascii.eqb c DQUOTE) eqn:E; push_append.
    + apply Ascii.eqb_eq in E. subst c. cbn [unquote].
      rewrite !Ascii.eqb_refl, IH. reflexivity.
    + cbn [unquote]. rewrite E, IH. reflexivity.
Qed.

Lemma test_false_head cls c s :
  test cls (String c s) = false -> cls c = false /\ test cls s = false.
Proof. cbn [test]. apply orb_false_elim. Qed.

Lemma readCell_of_esc v : readCell (esc v) = Some (ToString (nullish v (VStr ""))).
Proof.
  unfold esc.
  destruct (test inClass (ToString (nullish v (VStr "")))) eqn:T.
  - cbn [readCell]. rewrite Ascii.eqb_refl. apply unquote_doubled.
  - destruct (ToString (nullish v (VStr ""))) as [|c s]; [reflexivity|].
    cbn [readCell]. apply test_false_head in T as [Tc _].
    unfold inClass in Tc. apply orb_false_elim in Tc as [Tc _].
    apply orb_false_elim in Tc as [Tc _]. apply orb_false_elim in Tc as [Tc _].
    now rewrite Tc.
Qed.

(** X11. Reading a cell back gives the text it was made from: the outer
    quotes are dropped and the doubled quotes halved, and a cell written
    without quotes is its own text.  So two values with different texts
    never give the same cell. *)
Theorem readCell_esc :
  (forall v, readCell (esc v) = Some (ToString (nullish v (VStr ""))))
  /\ (forall v w, esc v = esc w ->
        ToString (nullish v (VStr "")) = ToString (nullish w (VStr ""))).
Proof.
  split; [exact readCell_of_esc|].
  intros v w E. pose proof (readCell_of_esc v) as Hv.
  rewrite E, readCell_of_esc in Hv. now injection Hv.
Qed.

Lemma readCell_esc_witness :
  ToString (nullish (VStr "a,b") (VStr "")) = ToString (nullish (VStr "a,b") (VStr "")).
Proof.
  apply (proj2 readCell_esc (VStr "a,b") (VStr "a,b")). reflexivity.
Defined.

Lemma splitFrom_balanced w : forall inq cell record rest,
  balanced inq w = true ->
  splitFrom inq cell record (w +:+ rest) = splitFrom false (cell +:+ w) record rest.
Proof.
  induction w as [|c w IH]; intros inq cell record rest B; push_append.
  - cbn [balanced] in B. destruct inq; [discriminate B|]. now rewrite append_nil_r.
  - cbn [balanced] in B. cbn [splitFrom].
    replace (cell +:+ String c w) with ((cell +:+ String c "") +:+ w)
      by (rewrite append_assoc; now push_append).
    destruct (Ascii.eqb c DQUOTE); [now apply IH|].
    destruct inq; cbn [negb andb] in *; [now apply IH|].
    destruct (Ascii.eqb c COMMA); [discriminate B|].
    destruct (Ascii.eqb c LF); [discriminate B|]. now apply IH.
Qed.

Lemma balanced_plain s : test inClass s = false -> balanced false s = true.
Proof.
  induction s as [|c s IH]; intros T; [reflexivity|].
  apply test_false_head in T as [Tc T]. unfold inClass in Tc.
  apply orb_false_elim in Tc as [Tc _]. apply orb_false_elim in Tc as [Tc Tl].
  apply orb_false_elim in Tc as [Tq Tc].
  cbn [balanced]. rewrite Tq, Tc, Tl. cbn [negb andb orb]. now apply IH.
Qed.

Lemma balanced_doubled s :
  balanced true (replaceAll DQUOTE (String DQUOTE (String DQUOTE "")) s
                 +:+ String DQUOTE "") = true.
Proof.
  induction s as [|c s IH]; cbn [replaceAll]; push_append.
  - cbn [balanced]. now rewrite Ascii.eqb_refl.
  - destruct (Ascii.eqb c DQUOTE) eqn:E; push_append; cbn [balanced].
    + rewrite !Ascii.eqb_refl. exact IH.
    + rewrite E. exact IH.
Qed.

Lemma balanced_esc v : balanced false (esc v) = true.
Proof.
  unfold esc. destruct (test inClass (ToString (nullish v (VStr "")))) eqn:T.
  - cbn [balanced]. rewrite Ascii.eqb_refl. apply balanced_doubled.
  - now apply balanced_plain.
Qed.

Lemma join_cons2 sep x y (l : list string) :
  join sep (x :: y :: l) = x +:+ sep +:+ join sep (y :: l).
Proof. reflexivity. Qed.

Lemma split_cells_end cs : forall c record,
  Forall (fun w => balanced false w = true) (c :: cs) ->
  splitFrom false "" record (join "," (c :: cs)) = [record ++ c :: cs].
Proof.
  induction cs as [|c' cs IH]; intros c record F.
  - apply Forall_cons in F as [Bc _]. change (join "," [c]) with c.
    rewrite <- (append_nil_r c) at 1.
    rewrite (splitFrom_balanced c false "" record "" Bc). reflexivity.
  - apply Forall_cons in F as [Bc F]. rewrite join_cons2.
    rewrite (splitFrom_balanced c false "" record _ Bc). push_append.
    cbn [splitFrom]. change (Ascii.eqb "," DQUOTE) with false.
    change (Ascii.eqb "," COMMA) with true. cbn [negb andb].
    rewrite (IH c' (record ++ [c]) F). now rewrite <- app_assoc.
Qed.

Lemma split_cells_line cs : forall c record rest,
  Forall (fun w => balanced false w = true) (c :: cs) ->
  splitFrom false "" record (join "," (c :: cs) +:+ String LF rest)
  = (record ++ c :: cs) :: splitFrom false "" [] rest.
Proof.
  induction cs as [|c' cs IH]; intros c record rest F.
  - apply Forall_cons in F as [Bc _]. change (join "," [c]) with c.
    rewrite (splitFrom_balanced c false "" record _ Bc). push_append.
    cbn [splitFrom]. change (Ascii.eqb LF DQUOTE) with false.
    change (Ascii.eqb LF COMMA) with false. change (Ascii.eqb LF LF) with true.
    reflexivity.
  - apply Forall_cons in F as [Bc F]. rewrite join_cons2, !append_assoc.
    rewrite (splitFrom_balanced c false "" record _ Bc). push_append.
    cbn [splitFrom]. change (Ascii.eqb "," DQUOTE) with false.
    change (Ascii.eqb "," COMMA) with true. cbn [negb andb].
    rewrite (IH c' (record ++ [c]) rest F). now rewrite <- app_assoc.
Qed.

Lemma split_table (table : list (list string)) : forall first,
  Forall (fun cells => cells <> [] /\ Forall (fun w => balanced false w = true) cells)
         (first :: table) ->
  splitCSV (join (String LF "") (map (join ",") (first :: table))) = first :: table.
Proof.
  unfold splitCSV.
  induction table as [|next table IH]; intros first F.
  - apply Forall_cons in F as [[Hne Hb] _]. cbn [map].
    change (join (String LF "") [join "," first]) with (join "," first).
    destruct first as [|c cs]; [congruence|]. now rewrite split_cells_end.
  - apply Forall_cons in F as [[Hne Hb] F]. cbn [map]. rewrite join_cons2. push_append.
    destruct first as [|c cs]; [congruence|].
    rewrite split_cells_line by exact Hb. cbn [app]. f_equal.
    apply (IH next F).
Qed.

Lemma splitCSV_buildCSV r0 rest :
  keys r0 <> [] ->
  (forall k, In k (keys r0) -> test inClass k = false) ->
  splitCSV (buildCSV (r0 :: rest))
  = keys r0 :: map (fun r => map (fun h => esc (get r h)) (keys r0)) (r0 :: rest).
Proof.
  intros Hne Hk. rewrite buildCSV_lines. unfold csvLine.
  rewrite <- (map_map (fun r => map (fun h => esc (get r h)) (keys r0)) (join ",")).
  apply (split_table (map (fun r => map (fun h => esc (get r h)) (keys r0)) (r0 :: rest))
                     (keys r0)).
  apply Forall_cons. split.
  - split; [exact Hne|]. apply List.Forall_forall. intros k I.
    apply balanced_plain. now apply Hk.
  - apply List.Forall_forall. intros cells I. apply in_map_iff in I as (r & <- & _).
    split.
    + destruct (keys r0); [congruence | discriminate].
    + apply List.Forall_forall. intros w I. apply in_map_iff in I as (h & <- & _).
      apply balanced_esc.
Qed.

(** X12. When the first row has at least one key and no key contains a
    comma, a double quote, a line feed or a carriage return, reading the
    text back gives one record for the header and one for every row, each
    with one cell per key, and decoding the cells gives the keys and the
    texts of the values: nothing is split, merged or lost, whatever the
    values contain. *)
Theorem buildCSV_reads_back r0 rest :
  keys r0 <> [] ->
  (forall k, In k (keys r0) -> test inClass k = false) ->
  splitCSV (buildCSV (r0 :: rest))
  = keys r0 :: map (fun r => map (fun h => esc (get r h)) (keys r0)) (r0 :: rest)
  /\ map (map readCell) (splitCSV (buildCSV (r0 :: rest)))
     = map Some (keys r0)
       :: map (fun r => map (fun h => Some (ToString (nullish (get r h) (VStr ""))))
                            (keys r0))
              (r0 :: rest).
Proof.
  intros Hne Hk. pose proof (splitCSV_buildCSV r0 rest Hne Hk) as S.
  split; [exact S|]. rewrite S. cbn [map]. f_equal.
  - apply map_ext_in. intros k I. specialize (Hk k I).
    destruct k as [|c k]; [reflexivity|]. cbn [readCell].
    apply test_false_head in Hk as [Tc _]. unfold inClass in Tc.
    apply orb_false_elim in Tc as [Tc _]. apply orb_false_elim in Tc as [Tc _].
    apply orb_false_elim in Tc as [Tc _]. now rewrite Tc.
  - f_equal; [|rewrite map_map; apply map_ext; intros r];
      rewrite map_map; apply map_ext; intros h; apply readCell_of_esc.
Qed.

Lemma buildCSV_reads_back_witness :
  splitCSV (buildCSV [[("A", VStr "x,y"); ("B", VNull)]])
  = ["A"; "B"] :: [[esc (VStr "x,y"); esc VNull]].
Proof.
  apply (proj1 (buildCSV_reads_back [("A", VStr "x,y"); ("B", VNull)] []
                  ltac:(discriminate)
                  ltac:(intros k [<-|[<-|[]]]; reflexivity))).
Defined.

(** ** Export of the capacities *)

(** X13. Exporting downloads nothing when no row passes the filters.
    Otherwise it produces the one file [capacities.csv], and reading that
    file back gives the header Slot_ID, Start_Time, End_Time, Day, Gender,
    Capacity, Date followed by one record of seven cells for every row
    that passes the filters, in order: all of them, not one page. *)
Theorem exportCapacities_content imported filterDay filterGender filterDate :
  match capacitiesView imported filterDay filterGender filterDate with
  | [] => exportCapacities imported filterDay filterGender filterDate = None
  | view =>
      exists csv,
        exportCapacities imported filterDay filterGender filterDate
        = Some ("capacities.csv", csv)
        /\ splitCSV csv
           = ["Slot_ID"; "Start_Time"; "End_Time"; "Day"; "Gender"; "Capacity"; "Date"]
             :: map expandedCells view
  end.
Proof.
  unfold exportCapacities.
  destruct (capacitiesView imported filterDay filterGender filterDate) as [|r rs];
    [reflexivity|].
  cbn [map downloadCSV]. eexists. split; [reflexivity|].
  rewrite splitCSV_buildCSV.
  - f_equal.
    change (expandedObject r :: map expandedObject rs)
      with (map expandedObject (r :: rs)).
    rewrite map_map.
    change (expandedCells r :: map expandedCells rs) with (map expandedCells (r :: rs)).
    apply map_ext. intros x. reflexivity.
  - discriminate.
  - cbn. intros k H. repeat (destruct H as [<-|H]; [reflexivity|]). destruct H.
Qed.

(** ** More on validate and preview *)

(** Projections of a state built by the setters. *)
Ltac state_simpl :=
  cbn [fst snd alerts errors imported loading fromDate toDate excelFile bookings
       setLoading setImported alert consoleError].

Lemma handler_result tz S2N st file :
  excelFile st = Some file -> fromDate st <> "" -> toDate st <> "" ->
  handleValidatePreview tz S2N st
  = (inr tt,
     match previewBody tz S2N file (fromDate st) (toDate st) (setLoading true st) with
     | (inl e, st1) => setLoading false (alert ("Error: " +:+ message e) (consoleError e st1))
     | (inr _, st1) => setLoading false st1
     end).
Proof.
  intros F Hf Ht. unfold handleValidatePreview. rewrite F.
  apply String.eqb_neq in Hf, Ht. rewrite Hf, Ht. cbn [orb].
  unfold bind at 1, modify at 1, tryFinally, tryCatch.
  destruct (previewBody tz S2N file (fromDate st) (toDate st) (setLoading true st))
    as [[e|[]] st1]; reflexivity.
Qed.

(** X14. The action always returns normally, whatever the file and the
    dates are: an exception of the body is caught.  Each run shows exactly
    one alert and leaves the dates, the picked file and the bookings as
    they were; when a file is picked and both dates are set, the loading
    flag is off at the end. *)
Theorem handleValidatePreview_returns tz S2N st :
  let st' := snd (handleValidatePreview tz S2N st) in
  fst (handleValidatePreview tz S2N st) = inr tt
  /\ length (alerts st') = S (length (alerts st))
  /\ fromDate st' = fromDate st /\ toDate st' = toDate st
  /\ excelFile st' = excelFile st /\ bookings st' = bookings st
  /\ (excelFile st <> None -> fromDate st <> "" -> toDate st <> "" ->
      loading st' = false).
Proof.
  assert (N : excelFile st = None \/ fromDate st = "" \/ toDate st = "" ->
    let st' := snd (handleValidatePreview tz S2N st) in
    fst (handleValidatePreview tz S2N st) = inr tt
    /\ length (alerts st') = S (length (alerts st))
    /\ fromDate st' = fromDate st /\ toDate st' = toDate st
    /\ excelFile st' = excelFile st /\ bookings st' = bookings st
    /\ (excelFile st <> None -> fromDate st <> "" -> toDate st <> "" ->
        loading st' = false)).
  { intros H. rewrite (preview_without_inputs st tz S2N H). state_simpl.
    rewrite length_app. cbn [length]. repeat split; try lia. tauto. }
  destruct (excelFile st) as [file|] eqn:F; [|apply N; now left].
  destruct (String.eqb_spec (fromDate st) "") as [Ef|Ef]; [apply N; tauto|].
  destruct (String.eqb_spec (toDate st) "") as [Et|Et]; [apply N; tauto|].
  clear N. rewrite (handler_result tz S2N st file F Ef Et), previewBody_run.
  destruct file as [e|ws]; [|destruct (headerOk (sheet_to_json ws))];
    state_simpl; rewrite length_app, ?F; cbn [length]; repeat split; lia.
Qed.

Lemma handleValidatePreview_returns_witness :
  loading (snd (handleValidatePreview Examples.riyadh Examples.decimal
                  (Examples.session (inr Examples.headerOnly)))) = false.
Proof.
  apply (handleValidatePreview_returns Examples.riyadh Examples.decimal
           (Examples.session (inr Examples.headerOnly))); discriminate.
Defined.

(** X15. Without a picked file, or with a date input left empty, the
    action does nothing but show the alert that asks for them: the loading
    flag and the imported rows are not touched and the file is not read. *)
Theorem preview_needs_file_and_dates tz S2N st :
  excelFile st = None \/ fromDate st = "" \/ toDate st = "" ->
  handleValidatePreview tz S2N st
  = (inr tt, alert "Select From/To dates and upload an Excel file." st).
Proof. apply preview_without_inputs. Qed.

Lemma preview_needs_file_and_dates_witness :
  handleValidatePreview Examples.riyadh Examples.decimal
    {| fromDate := ""; toDate := "2024-01-07";
       excelFile := Some (inr Examples.headerOnly); loading := false;
       imported := []; bookings := []; alerts := []; errors := [] |}
  = (inr tt,
     {| fromDate := ""; toDate := "2024-01-07";
        excelFile := Some (inr Examples.headerOnly); loading := false;
        imported := []; bookings := [];
        alerts := ["Select From/To dates and upload an Excel file."];
        errors := [] |}).
Proof.
  apply (preview_needs_file_and_dates Examples.riyadh Examples.decimal). right. now left.
Defined.

(** X16. When the file is read and the first data row has the six
    columns, the imported rows are replaced by the expansion of the
    normalized sheet rows over the chosen dates (the rows held before play
    no part), and the alert reports the number of rows and the number of
    conflicting (date, slot) groups. *)
Theorem successful_preview tz S2N st ws :
  excelFile st = Some (inr ws) -> fromDate st <> "" -> toDate st <> "" ->
  headerOk (sheet_to_json ws) = true ->
  let expanded :=
    expandRange tz (map (normRow S2N) (sheet_to_json ws)) (fromDate st) (toDate st) in
  let st' := snd (handleValidatePreview tz S2N st) in
  imported st' = expanded
  /\ alerts st' = alerts st ++
       ["Preview ready. Rows: " +:+ showZ (Z.of_nat (length expanded))
        +:+ ". Conflicts found: "
        +:+ showZ (Z.of_nat (length (Conflict.bad expanded))) +:+ "."]
  /\ errors st' = errors st.
Proof.
  intros F Hf Ht H expanded st'. subst expanded st'.
  rewrite (handler_run tz S2N st _ F Hf Ht), previewBody_run, H.
  repeat split.
Qed.

Lemma successful_preview_witness :
  alerts (snd (handleValidatePreview Examples.riyadh Examples.decimal
                 (Examples.session (inr Fixtures.twoTemplates))))
  = ["Preview ready. Rows: 8. Conflicts found: 1."].
Proof.
  refine (eq_trans (proj1 (proj2 (successful_preview Examples.riyadh Examples.decimal
           (Examples.session (inr Fixtures.twoTemplates)) Fixtures.twoTemplates
           eq_refl ltac:(discriminate) ltac:(discriminate) eq_refl))) _).
  vm_compute. reflexivity.
Defined.

(** ** Import and overlap *)

Lemma add_loop_elem (f : Z -> string) ds : forall (set : gset string) x,
  x ∈ fold_left (fun set d => {[ f d ]} ∪ set) ds set
  <-> x ∈ set \/ exists d, In d ds /\ x = f d.
Proof.
  induction ds as [|d ds IH]; intros set x; cbn [fold_left In].
  - split; [tauto | intros [H|(d & [] & _)]; exact H].
  - rewrite IH, elem_of_union, elem_of_singleton. split.
    + intros [[->|H]|(d' & I & ->)]; [right; exists d; tauto | tauto | right; exists d'; tauto].
    + intros [H|(d' & [<-|I] & ->)]; [tauto | tauto | right; exists d'; tauto].
Qed.

Lemma count_loop (p : Z -> bool) ds : forall c,
  fold_left (fun c d => if p d then c + 1 else c) ds c
  = c + Z.of_nat (length (List.filter p ds)).
Proof.
  induction ds as [|d ds IH]; intros c; cbn [fold_left List.filter]; [cbn; lia|].
  rewrite IH. destruct (p d); cbn [length]; lia.
Qed.

(** X17. Importing never drops an applied date and never changes the
    imported rows, the dates, the file or the loading flag; it shows one
    alert.  With no imported rows the applied dates stay as they are;
    otherwise, with both dates valid, the applied dates afterwards are the
    earlier ones together with the date text of every date of the range. *)
Theorem handleImport_effects tz st (appliedDates : gset string) :
  let st' := fst (handleImport tz st appliedDates) in
  let applied' := snd (handleImport tz st appliedDates) in
  appliedDates ⊆ applied'
  /\ imported st' = imported st /\ fromDate st' = fromDate st
  /\ toDate st' = toDate st /\ excelFile st' = excelFile st
  /\ loading st' = loading st
  /\ length (alerts st') = S (length (alerts st))
  /\ (imported st = [] -> applied' = appliedDates)
  /\ (forall a b x,
        imported st <> [] ->
        newDate tz (fromDate st) = Some a -> newDate tz (toDate st) = Some b ->
        (x ∈ applied' <-> x ∈ appliedDates \/ exists d, In d (dateRange a b) /\ x = fmtDate d)).
Proof.
  unfold handleImport.
  destruct (imported st) as [|r rows] eqn:I.
  - state_simpl. rewrite length_app, I. cbn [length].
    split_and!; try reflexivity; try lia. congruence.
  - state_simpl. rewrite length_app, I. cbn [length].
    assert (S : forall from to, appliedDates ⊆ addRangeToApplied tz appliedDates from to).
    { intros from to. unfold addRangeToApplied.
      destruct (newDate tz from) as [a|]; [|set_solver].
      destruct (newDate tz to) as [b|]; [|set_solver].
      intros x Hx. apply add_loop_elem. now left. }
    split_and!; try reflexivity; try lia; try discriminate.
    + destruct (_ && _); [apply S | set_solver].
    + intros a b x _ Ha Hb.
      destruct (String.eqb_spec (fromDate st) "") as [Ef|Ef].
      { rewrite Ef in Ha. discriminate Ha. }
      destruct (String.eqb_spec (toDate st) "") as [Et|Et].
      { rewrite Et in Hb. discriminate Hb. }
      cbn [negb andb]. unfold addRangeToApplied. rewrite Ha, Hb.
      apply add_loop_elem.
Qed.

Lemma handleImport_effects_witness :
  "2024-01-02" ∈ snd (handleImport 0 (Examples.session (inr Examples.headerOnly)) ∅).
Proof.
  apply (proj2 (proj2 (proj2 (proj2 (proj2 (proj2 (proj2 (proj2
           (handleImport_effects 0 (Examples.session (inr Examples.headerOnly)) ∅))))))))
         (dayStart 0 19723) (dayStart 0 19729) "2024-01-02"
         ltac:(discriminate) eq_refl eq_refl).
  right. exists (dayStart 0 19724). split; [|reflexivity].
  rewrite dateRange_daysFromTo. vm_compute. tauto.
Defined.

Lemma newDate_nonempty tz s t : newDate tz s = Some t -> s <> "".
Proof. intros H ->. discriminate H. Qed.

Lemma overlapCount_filter tz from to (applied : gset string) a b :
  newDate tz from = Some a -> newDate tz to = Some b ->
  overlapCount tz from to applied
  = Z.of_nat (length (List.filter (fun d => bool_decide (fmtDate d ∈ applied))
                                  (dateRange a b))).
Proof.
  intros Ha Hb. unfold overlapCount.
  pose proof (newDate_nonempty _ _ _ Ha) as Na.
  pose proof (newDate_nonempty _ _ _ Hb) as Nb.
  apply String.eqb_neq in Na, Nb. rewrite Na, Nb, Ha, Hb. cbn [orb].
  now rewrite (count_loop (fun d => bool_decide (fmtDate d ∈ applied))).
Qed.

Lemma filter_all {A} (p : A -> bool) l :
  (forall x, In x l -> p x = true) -> List.filter p l = l.
Proof.
  induction l as [|x l IH]; intros H; cbn [List.filter]; [reflexivity|].
  rewrite (H x (or_introl eq_refl)). f_equal. apply IH. intros y I. apply H. now right.
Qed.

Lemma filter_length_mono {A} (p q : A -> bool) l :
  (forall x, p x = true -> q x = true) ->
  (length (List.filter p l) <= length (List.filter q l))%nat.
Proof.
  intros H. induction l as [|x l IH]; cbn [List.filter]; [lia|].
  destruct (p x) eqn:P.
  - rewrite (H x P). cbn [length]. lia.
  - destruct (q x); cbn [length]; lia.
Qed.



(** X19. The overlap count lies between 0 and the number of dates of the
    range, is 0 when no date is applied, and does not decrease when dates
    are added to the applied set. *)
Theorem overlapCount_bounds tz from to a b :
  newDate tz from = Some a -> newDate tz to = Some b ->
  (forall applied : gset string,
     0 <= overlapCount tz from to applied <= Z.of_nat (length (dateRange a b)))
  /\ overlapCount tz from to ∅ = 0
  /\ (forall applied applied' : gset string,
        applied ⊆ applied' ->
        overlapCount tz from to applied <= overlapCount tz from to applied').
Proof.
  intros Ha Hb. split_and!.
  - intros applied. rewrite (overlapCount_filter tz _ _ _ _ _ Ha Hb).
    pose proof (List.filter_length_le (fun d => bool_decide (fmtDate d ∈ applied))
                  (dateRange a b)). lia.
  - rewrite (overlapCount_filter tz _ _ _ _ _ Ha Hb).
    replace (List.filter _ (dateRange a b)) with (@nil Z); [reflexivity|].
    induction (dateRange a b) as [|d ds IH]; [reflexivity|].
    cbn [List.filter]. rewrite bool_decide_eq_false_2 by set_solver. exact IH.
  - intros applied applied' S.
    rewrite !(overlapCount_filter tz _ _ _ _ _ Ha Hb).
    apply inj_le. apply filter_length_mono. intros d H.
    apply bool_decide_eq_true in H. apply bool_decide_eq_true. set_solver.
Qed.

Lemma overlapCount_bounds_witness :
  overlapCount 0 "2024-01-01" "2024-01-07" ∅ = 0.
Proof.
  apply (overlapCount_bounds 0 "2024-01-01" "2024-01-07"
           (dayStart 0 19723) (dayStart 0 19729) eq_refl eq_refl).
Defined.

(** ** Filters *)

Lemma filter_sublist {A} (p : A -> bool) (l : list A) : sublist (List.filter p l) l.
Proof.
  induction l as [|x l IH]; cbn [List.filter]; [constructor|].
  destruct (p x); now constructor.
Qed.

(** X20. The filtered view never adds or reorders rows: it is a sublist
    of the imported rows, it is all of them when the three filters are
    empty, and a row is in it exactly when it is imported and agrees with
    every filter that is not empty. *)
Theorem capacitiesView_spec imported :
  capacitiesView imported "" "" "" = imported
  /\ (forall fd fg ft, sublist (capacitiesView imported fd fg ft) imported)
  /\ (forall fd fg ft (r : ExpandedRow),
        In r (capacitiesView imported fd fg ft)
        <-> In r imported
            /\ (fd = "" \/ Day r = fd) /\ (fg = "" \/ Gender r = fg)
            /\ (ft = "" \/ Date r = ft)).
Proof.
  split_and!.
  - unfold capacitiesView. apply filter_all. intros r _. reflexivity.
  - intros fd fg ft. apply filter_sublist.
  - intros fd fg ft r. unfold capacitiesView.
    rewrite List.filter_In, !andb_true_iff, !orb_true_iff, !String.eqb_eq. tauto.
Qed.

(** ** Pages *)

Lemma ceilDiv_bounds n d : 0 < d -> d * (ceilDiv n d - 1) < n <= d * ceilDiv n d.
Proof.
  intros Hd. unfold ceilDiv.
  pose proof (Z.mul_div_le (- n) d Hd).
  pose proof (Z.mul_succ_div_gt (- n) d Hd). lia.
Qed.

Lemma pageCount_bounds n : 0 <= n ->
  1 <= pageCount n /\ n <= PAGE_SIZE * pageCount n
  /\ (0 < n -> PAGE_SIZE * (pageCount n - 1) < n).
Proof.
  intros Hn. unfold pageCount.
  pose proof (ceilDiv_bounds n PAGE_SIZE ltac:(reflexivity)). unfold PAGE_SIZE in *. lia.
Qed.

Lemma slice_window_length {A} (l : list A) start w :
  0 <= w -> Z.of_nat (length (slice l start (start + w))) <= w.
Proof.
  intros Hw. unfold slice, relativeIndex.
  rewrite length_firstn.
  destruct (Z.ltb_spec start 0), (Z.ltb_spec (start + w) 0); lia.
Qed.

Lemma pageRows_chunk {A} (rows : list A) page :
  1 <= page ->
  pageRows rows page = firstn 20 (skipn (20 * Z.to_nat (page - 1)) rows).
Proof.
  intros Hp. unfold pageRows, slice, relativeIndex, PAGE_SIZE.
  destruct (Z.ltb_spec ((page - 1) * 20) 0); [lia|].
  destruct (Z.ltb_spec ((page - 1) * 20 + 20) 0); [lia|].
  destruct (Z_le_gt_dec (Z.of_nat (length rows)) ((page - 1) * 20)) as [Hge|Hlt].
  - rewrite !skipn_all2 by lia. now rewrite !firstn_nil.
  - replace (Z.to_nat (Z.min ((page - 1) * 20) (Z.of_nat (length rows))))
      with (20 * Z.to_nat (page - 1))%nat by lia.
    destruct (Z_le_gt_dec ((page - 1) * 20 + 20) (Z.of_nat (length rows))) as [H1|H1].
    + f_equal. lia.
    + rewrite !firstn_all2; [reflexivity | |]; rewrite length_skipn; lia.
Qed.

(** X21. The pagination check of the component always passes: whatever
    the rows and the page number, the page holds at most [PAGE_SIZE] rows
    and there is at least one page. *)
Theorem pagination_check_passes {A} (rows : list A) page :
  paginationOk rows page = true
  /\ Z.of_nat (length (pageRows rows page)) <= PAGE_SIZE
  /\ 1 <= pageCount (Z.of_nat (length rows)).
Proof.
  assert (L : Z.of_nat (length (pageRows rows page)) <= PAGE_SIZE).
  { unfold pageRows.
    apply slice_window_length. unfold PAGE_SIZE. lia. }
  assert (P : 1 <= pageCount (Z.of_nat (length rows)))
    by (apply pageCount_bounds; lia).
  split_and!; try assumption.
  unfold paginationOk. apply andb_true_intro. split; now apply Z.leb_le.
Qed.

Lemma chunks_concat {A} m : forall l : list A,
  (length l <= 20 * m)%nat ->
  concat (map (fun i => firstn 20 (skipn (20 * i) l)) (seq 0 m)) = l.
Proof.
  induction m as [|m IH]; intros l H.
  - destruct l; [reflexivity | cbn in H; lia].
  - cbn [seq map concat]. rewrite <- seq_shift, map_map.
    rewrite Nat.mul_0_r. change (skipn 0 l) with l.
    transitivity (firstn 20 l ++ skipn 20 l); [|apply firstn_skipn].
    f_equal.
    rewrite <- (IH (skipn 20 l)) at 1 by (rewrite length_skipn; lia).
    f_equal. apply map_ext. intros i. rewrite skipn_skipn. do 2 f_equal. lia.
Qed.

(** X22. The pages cut the list into consecutive pieces: the rows of
    pages 1, 2, ... up to the page count, one after the other, are the
    whole list, each row once and in order. *)
Theorem pages_cover_the_rows {A} (rows : list A) :
  concat (map (pageRows rows) (seqZ 1 (pageCount (Z.of_nat (length rows))))) = rows.
Proof.
  pose proof (pageCount_bounds (Z.of_nat (length rows)) ltac:(lia)) as (P1 & P2 & _).
  set (pages := pageCount (Z.of_nat (length rows))) in *.
  rewrite <- (chunks_concat (Z.to_nat pages) rows) at 2
    by (unfold PAGE_SIZE in P2; lia).
  f_equal. unfold seqZ. change (fmap ?f ?l) with (map f l).
  rewrite map_map. apply map_ext_in. intros i _.
  rewrite pageRows_chunk by lia. do 3 f_equal. lia.
Qed.

(** X23. With the page number between 1 and the page count, Prev and
    Next keep it there: each moves by one page, except that Prev stays on
    page 1 and Next stays on the last page. *)
Theorem page_buttons_stay_in_range pages p :
  1 <= p <= pages ->
  1 <= prevPage p <= pages /\ 1 <= nextPage pages p <= pages
  /\ prevPage p = (if p =? 1 then 1 else p - 1)
  /\ nextPage pages p = (if p =? pages then pages else p + 1).
Proof.
  intros H. unfold prevPage, nextPage.
  destruct (Z.eqb_spec p 1), (Z.eqb_spec p pages); lia.
Qed.

Lemma page_buttons_stay_in_range_witness :
  1 <= prevPage 1 <= 3 /\ 1 <= nextPage 3 3 <= 3.
Proof.
  split.
  - apply (page_buttons_stay_in_range 3 1). lia.
  - apply (page_buttons_stay_in_range 3 3). lia.
Defined.

(** X24. For a list that is not empty and a page between 1 and the page
    count, the page is not empty, the line Showing a-b of n names exactly
    its rows (it holds [b - a + 1] rows), and its row number [i] is row
    number [a - 1 + i] of the list. *)
Theorem page_rows_match_showing_line {A} (rows : list A) p :
  let n := Z.of_nat (length rows) in
  0 < n -> 1 <= p <= pageCount n ->
  1 <= Z.of_nat (length (pageRows rows p))
  /\ Z.of_nat (length (pageRows rows p)) = showingTo n p - showingFrom n p + 1
  /\ (forall i, (i < length (pageRows rows p))%nat ->
        pageRows rows p !! i = rows !! (Z.to_nat (showingFrom n p - 1) + i)%nat).
Proof.
  intros n Hn Hp.
  pose proof (pageCount_bounds n ltac:(lia)) as (P1 & P2 & P3). specialize (P3 Hn).
  rewrite pageRows_chunk by lia.
  assert (L : Z.of_nat (length (firstn 20 (skipn (20 * Z.to_nat (p - 1)) rows)))
              = Z.min 20 (n - 20 * (p - 1))).
  { rewrite length_firstn, length_skipn. unfold PAGE_SIZE in *. subst n. nia. }
  unfold showingFrom, showingTo, PAGE_SIZE in *.
  split_and!.
  - rewrite L. nia.
  - rewrite L. nia.
  - intros i Hi. rewrite lookup_take_lt by (rewrite length_firstn in Hi; lia).
    rewrite lookup_drop. f_equal. lia.
Qed.

Lemma page_rows_match_showing_line_witness :
  Z.of_nat (length (pageRows (repeat tt 45) 3))
  = showingTo 45 3 - showingFrom 45 3 + 1.
Proof.
  apply (page_rows_match_showing_line (repeat tt 45) 3); [reflexivity | vm_compute; split; discriminate].
Defined.

(** ** The calendar grid *)

Lemma push_map {A B} (f : A -> B) l : forall acc,
  fold_left (fun cells x => cells ++ [f x]) l acc = acc ++ map f l.
Proof.
  induction l as [|x l IH]; intros acc; cbn [fold_left map].
  - now rewrite app_nil_r.
  - now rewrite IH, <- app_assoc.
Qed.

Lemma calendarCells_layout tz year month :
  calendarCells tz year month
  = replicate (Z.to_nat (getDay tz (dateOf tz year month 1))) None
    ++ map (fun day => Some (dateOf tz year month day))
           (seqZ 1 (getDate tz (dateOf tz year (month + 1) 0))).
Proof.
  unfold calendarCells.
  rewrite (push_map (fun day => Some (dateOf tz year month day))). f_equal.
  rewrite (push_map (fun _ : Z => @None Z)). cbn [app].
  unfold seqZ. change (fmap ?f ?l) with (map f l). rewrite map_map.
  generalize (Z.to_nat (getDay tz (dateOf tz year month 1))) as n.
  intros n. generalize 0%nat as k.
  induction n as [|n IH]; intros k; cbn [seq map replicate]; [reflexivity|].
  now rewrite IH.
Qed.

Lemma getDay_dayStart tz k : getDay tz (dayStart tz k) = (k + 4) mod 7.
Proof.
  unfold getDay, dayStart.
  replace (k * msPerDay - tz * msPerMinute + tz * msPerMinute) with (k * msPerDay) by ring.
  now rewrite Z.div_mul by (unfold msPerDay; lia).
Qed.

Lemma days_from_civil_day y m d :
  days_from_civil y m d = days_from_civil y m 1 + (d - 1).
Proof. unfold days_from_civil. cbv zeta. lia. Qed.

(** X25. In the month grid the blanks come first, as many as the weekday
    number of the first of the month (0 for Sunday, fewer than 7); then
    the dates of the month follow one cell each, so the cell of every
    date stands at a position whose remainder by 7 is the weekday number
    of that date: under its weekday in a seven-column grid that starts on
    Sunday. *)
Theorem calendar_cells_align tz year month :
  let cells := calendarCells tz year month in
  let startDay := getDay tz (dateOf tz year month 1) in
  0 <= startDay < 7
  /\ (forall i, 0 <= i < startDay -> cells !! Z.to_nat i = Some None)
  /\ (forall day,
        1 <= day <= getDate tz (dateOf tz year (month + 1) 0) ->
        cells !! Z.to_nat (startDay + day - 1) = Some (Some (dateOf tz year month day))
        /\ getDay tz (dateOf tz year month day) = (startDay + day - 1) mod 7).
Proof.
  intros cells startDay. subst cells.
  assert (B : 0 <= startDay < 7) by (apply Z.mod_pos_bound; lia).
  rewrite calendarCells_layout. fold startDay. split_and!; try lia.
  - intros i Hi. rewrite lookup_app_l by (rewrite length_replicate; lia).
    apply lookup_replicate_2. lia.
  - intros day Hd. split.
    + rewrite lookup_app_r by (rewrite length_replicate; lia).
      rewrite length_replicate.
      replace (Z.to_nat (startDay + day - 1) - Z.to_nat startDay)%nat
        with (Z.to_nat (day - 1)) by lia.
      change (map ?f ?l) with (fmap f l). rewrite list_lookup_fmap.
      rewrite (lookup_seqZ_lt _ _ (Z.to_nat (day - 1))) by lia.
      cbn [fmap option_fmap option_map]. do 3 f_equal. lia.
    + subst startDay. unfold dateOf.
      rewrite (days_from_civil_day year (month + 1) day), !getDay_dayStart.
      replace ((days_from_civil year (month + 1) 1 + 4) mod 7 + day - 1)
        with ((days_from_civil year (month + 1) 1 + 4) mod 7 + (day - 1)) by lia.
      rewrite Z.add_mod_idemp_l by lia. f_equal. lia.
Qed.

Lemma calendar_cells_align_witness :
  calendarCells 180 2024 0 !! Z.to_nat (getDay 180 (dateOf 180 2024 0 1) + 15 - 1)
  = Some (Some (dateOf 180 2024 0 15)).
Proof.
  apply (proj2 (proj2 (calendar_cells_align 180 2024 0)) 15). vm_compute.
  split; discriminate.
Defined.



(** ** The mock bookings *)

Lemma mockStep_invariant random now pick st r :
  In r pick ->
  mockInvariant random now pick st ->
  mockInvariant random now pick (mockStep random now st r).
Proof.
  intros Ir. destruct st as [[[sample i] used] stopped].
  unfold mockStep. intros (Hi & Hl & Hs & Hb).
  destruct stopped; [now repeat split|].
  destruct (le0 (Capacity r)) eqn:C; [now repeat split|].
  destruct (below008 (random used)); [now repeat split|].
  specialize (Hs eq_refl). unfold mockInvariant.
  rewrite length_app. cbn [length]. split_and!; try lia.
  - intros H. apply Z.ltb_ge in H. lia.
  - intros k b Hk. apply lookup_app_Some in Hk as [Hk|[Hge Hk]].
    + now apply Hb.
    + destruct (k - length sample)%nat as [|n] eqn:E; [|destruct n; discriminate Hk].
      injection Hk as <-. exists r.
      exists (Z.min 5 (Z.max 1 (floorTimes4 (random (S used)) + 1))).
      split_and!; try assumption; try lia.
      f_equal. lia.
Qed.

Lemma mock_loop_invariant random now pick rows : forall st,
  (forall r, In r rows -> In r pick) ->
  mockInvariant random now pick st ->
  mockInvariant random now pick (fold_left (mockStep random now) rows st).
Proof.
  induction rows as [|r rows IH]; intros st Hin Hst; cbn [fold_left]; [exact Hst|].
  apply IH.
  - intros x I. apply Hin. now right.
  - apply mockStep_invariant; [apply Hin; now left | exact Hst].
Qed.

Lemma slice_prefix {A} (l : list A) n : 0 <= n -> slice l 0 n = firstn (Z.to_nat n) l.
Proof.
  intros Hn. unfold slice, relativeIndex.
  destruct (Z.ltb_spec 0 0); [lia|]. destruct (Z.ltb_spec n 0); [lia|].
  rewrite (Z.min_l 0) by lia. change (Z.to_nat 0) with 0%nat.
  change (skipn 0 l) with l. rewrite Z.sub_0_r.
  destruct (Z_le_gt_dec n (Z.of_nat (length l))).
  - now rewrite Z.min_l by lia.
  - rewrite Z.min_r by lia. rewrite Nat2Z.id, firstn_all.
    symmetry. apply firstn_all2. lia.
Qed.

Lemma mockSample_invariant random now imported :
  mockInvariant random now (firstn 400 imported)
    (fold_left (mockStep random now) (firstn 400 imported) ([], 1, O, false)).
Proof.
  apply mock_loop_invariant; [tauto|].
  unfold mockInvariant. cbn [length]. split_and!; try lia.
  intros k b H. discriminate H.
Qed.

Lemma mockSample_lookup random now imported :
  (length (mockSample random now imported) <= 201)%nat
  /\ forall k b,
       mockSample random now imported !! k = Some b ->
       exists r seats,
         In r (firstn 400 imported) /\ le0 (Capacity r) = false
         /\ 1 <= seats <= 5
         /\ b = mockBooking now (Z.of_nat k + 1) seats r.
Proof.
  pose proof (mockSample_invariant random now imported) as I.
  unfold mockSample. rewrite (slice_prefix imported 400) by lia.
  change (Z.to_nat 400) with 400%nat.
  destruct (fold_left _ _ _) as [[[sample i] used] stopped].
  destruct I as (_ & Hl & _ & Hb). split; [exact Hl | exact Hb].
Qed.

(** X27. Whatever the random values are, the mock sample has at most 201
    bookings, and its booking number [k] (from 0) is the one built with
    counter [k + 1] from one of the first 400 imported rows whose capacity
    is not [<= 0], with between 1 and 5 seats: it copies that row's date,
    slot and gender, and its ids and status follow from its position. *)
Theorem mockSample_entries random now imported :
  (length (mockSample random now imported) <= 201)%nat
  /\ forall k b,
       mockSample random now imported !! k = Some b ->
       exists r seats,
         In r (firstn 400 imported) /\ le0 (Capacity r) = false
         /\ 1 <= seats <= 5
         /\ b = mockBooking now (Z.of_nat k + 1) seats r.
Proof. apply mockSample_lookup. Qed.

Lemma mockSample_entries_witness :
  exists r seats,
    In r (firstn 400 [Examples.rowOf "2024-01-01" (Fin 1) "Men" 3])
    /\ le0 (Capacity r) = false /\ 1 <= seats <= 5
    /\ mockBooking "2024-01-01T00:00:00.000Z" 1 3
         (Examples.rowOf "2024-01-01" (Fin 1) "Men" 3)
       = mockBooking "2024-01-01T00:00:00.000Z" (Z.of_nat 0 + 1) seats r.
Proof.
  apply (proj2 (mockSample_entries Fixtures.steady "2024-01-01T00:00:00.000Z"
                  [Examples.rowOf "2024-01-01" (Fin 1) "Men" 3]) 0%nat).
  reflexivity.
Defined.

Lemma padded_counters_distinct :
  NoDup (map (fun k => pad 5 (Z.of_nat k + 1)) (seq 0 201)).
Proof. refine (bool_decide_unpack _ _). vm_compute. exact I. Qed.

(** X28. Within one mock sample no two bookings share a booking id, and
    no two share a pilgrim id. *)
Theorem mockSample_ids_unique random now imported j k b b' :
  mockSample random now imported !! j = Some b ->
  mockSample random now imported !! k = Some b' ->
  Booking.Booking_ID b = Booking.Booking_ID b'
  \/ Booking.Pilgrim_ID b = Booking.Pilgrim_ID b' ->
  j = k.
Proof.
  intros Hj Hk E.
  destruct (mockSample_lookup random now imported) as [L H].
  pose proof (lookup_lt_Some _ _ _ Hj) as Lj.
  pose proof (lookup_lt_Some _ _ _ Hk) as Lk.
  destruct (H j b Hj) as (r & s & _ & _ & _ & ->).
  destruct (H k b' Hk) as (r' & s' & _ & _ & _ & ->).
  cbn [Booking.Booking_ID Booking.Pilgrim_ID mockBooking] in E.
  destruct E as [E|E]; push_append; injection E as E.
  - apply (NoDup_lookup _ j k (pad 5 (Z.of_nat j + 1)) padded_counters_distinct).
    + change (map ?f ?l) with (fmap f l). rewrite list_lookup_fmap, lookup_seq_lt by lia.
      reflexivity.
    + change (map ?f ?l) with (fmap f l). rewrite list_lookup_fmap, lookup_seq_lt by lia.
      cbn. now rewrite E.
  - apply showZ_inj in E. lia.
Qed.

Lemma mockSample_ids_unique_witness :
  0%nat = 0%nat.
Proof.
  apply (mockSample_ids_unique Fixtures.steady "2024-01-01T00:00:00.000Z"
           [Examples.rowOf "2024-01-01" (Fin 1) "Men" 3] 0 0 _ _ eq_refl eq_refl).
  now left.
Defined.

(** X29. Loading the mock bookings with no imported rows only shows an
    alert and keeps the bookings; with imported rows it replaces the
    bookings by the sample and shows nothing.  In both cases the imported
    rows, the dates, the file and the loading flag stay as they were. *)
Theorem loadMockBookings_effects random now st :
  let st' := loadMockBookings random now st in
  imported st' = imported st /\ fromDate st' = fromDate st
  /\ toDate st' = toDate st /\ excelFile st' = excelFile st
  /\ loading st' = loading st
  /\ (imported st = [] ->
      bookings st' = bookings st
      /\ alerts st' = alerts st ++ ["Import capacities first to align slots."])
  /\ (imported st <> [] ->
      bookings st' = mockSample random now (imported st)
      /\ alerts st' = alerts st).
Proof.
  unfold loadMockBookings. destruct (imported st) as [|r rows] eqn:I;
    cbn [setBookings alert imported fromDate toDate excelFile loading bookings alerts];
    rewrite ?I; split_and!; try reflexivity; try congruence; intros _; now split.
Qed.

Lemma loadMockBookings_effects_witness :
  alerts (loadMockBookings Fixtures.steady "2024-01-01T00:00:00.000Z"
            {| fromDate := ""; toDate := ""; excelFile := None; loading := false;
               imported := []; bookings := []; alerts := []; errors := [] |})
  = ["Import capacities first to align slots."].
Proof.
  apply (proj1 (proj2 (proj2 (proj2 (proj2 (proj2
           (loadMockBookings_effects Fixtures.steady "2024-01-01T00:00:00.000Z"
              {| fromDate := ""; toDate := ""; excelFile := None; loading := false;
                 imported := []; bookings := []; alerts := []; errors := [] |}))))))
         eq_refl).
Defined.

(** ** Instances *)


Lemma conflict_key_unambiguous_witness :
  "2024-01-01" = "2024-01-01" /\ Fin 12 = Fin 12.
Proof.
  apply (proj1 (conflict_key_unambiguous "2024-01-01" (Fin 12) "2024-01-01" (Fin 12))).
  reflexivity.
Defined.

Lemma capacitiesView_spec_witness :
  In (Examples.rowOf "2024-01-01" (Fin 1) "Women" 2)
     (capacitiesView [Examples.rowOf "2024-01-01" (Fin 1) "Men" 3;
                      Examples.rowOf "2024-01-01" (Fin 1) "Women" 2]
                     "" "Women" "").
Proof.
  apply (proj2 (proj2 (proj2 (capacitiesView_spec _)) "" "Women" "" _)).
  split; [right; now left | tauto].
Defined.

(** ** Date texts *)

Lemma cycle_checked :
  forallb (fun yoe =>
    forallb (fun m =>
      forallb (fun d => cycleCheck yoe m d)
              (seqZ 1 (daysInMonth (yoe + (if m <=? 2 then 1 else 0)) m)))
      (seqZ 1 12))
    (seqZ 0 400) = true.
Proof. vm_compute. reflexivity. Qed.

Lemma cycleCheck_valid yoe m d :
  0 <= yoe < 400 -> 1 <= m <= 12 ->
  1 <= d <= daysInMonth (yoe + (if m <=? 2 then 1 else 0)) m ->
  cycleCheck yoe m d = true.
Proof.
  intros Hy Hm Hd.
  assert (I1 : In yoe (seqZ 0 400)) by (apply list_elem_of_In, elem_of_seqZ; lia).
  assert (I2 : In m (seqZ 1 12)) by (apply list_elem_of_In, elem_of_seqZ; lia).
  assert (I3 : In d (seqZ 1 (daysInMonth (yoe + (if m <=? 2 then 1 else 0)) m)))
    by (apply list_elem_of_In, elem_of_seqZ; lia).
  pose proof (proj1 (forallb_forall _ _) cycle_checked yoe I1) as C1.
  pose proof (proj1 (forallb_forall _ _) C1 m I2) as C2.
  exact (proj1 (forallb_forall _ _) C2 d I3).
Qed.

Lemma isLeap_period e w : isLeap (e * 400 + w) = isLeap w.
Proof.
  unfold isLeap.
  replace ((e * 400 + w) mod 4) with (w mod 4)
    by (rewrite <- (Z.mod_add w (e * 100) 4) by lia; f_equal; lia).
  replace ((e * 400 + w) mod 100) with (w mod 100)
    by (rewrite <- (Z.mod_add w (e * 4) 100) by lia; f_equal; lia).
  replace ((e * 400 + w) mod 400) with (w mod 400)
    by (rewrite <- (Z.mod_add w e 400) by lia; f_equal; lia).
  reflexivity.
Qed.

Lemma civil_from_days_cycle z :
  civil_from_days z
  = let '(yoe, m, d) := civilOfDoe ((z + 719468) mod 146097) in
    let y := yoe + (z + 719468) / 146097 * 400 in
    (if m <=? 2 then y + 1 else y, m, d).
Proof. reflexivity. Qed.

Lemma civil_round_trip y m d :
  1 <= m <= 12 -> 1 <= d <= daysInMonth y m ->
  civil_from_days (days_from_civil y m d) = (y, m, d).
Proof.
  intros Hm Hd.
  set (c := if m <=? 2 then 1 else 0).
  set (y' := y - c).
  set (era := y' / 400).
  set (yoe := y' - era * 400).
  assert (Hyoe : 0 <= yoe < 400).
  { subst yoe era. pose proof (Z.mod_pos_bound y' 400 ltac:(lia)) as H.
    rewrite Z.mod_eq in H by lia. lia. }
  assert (Hy : y = era * 400 + (yoe + c)) by (subst yoe y'; lia).
  assert (Hd' : 1 <= d <= daysInMonth (yoe + c) m).
  { unfold daysInMonth in *. rewrite Hy, isLeap_period in Hd. exact Hd. }
  pose proof (cycleCheck_valid yoe m d Hyoe Hm Hd') as C.
  unfold cycleCheck in C.
  destruct (civilOfDoe (doeOf yoe m d)) as [[yoe2 m2] d2] eqn:E.
  apply andb_prop in C as [C1 C2]. apply andb_prop in C1 as [C0 C1].
  apply andb_prop in C2 as [C2 C4]. apply andb_prop in C2 as [C2 C3].
  apply Z.leb_le in C0. apply Z.ltb_lt in C1.
  apply Z.eqb_eq in C2, C3, C4. subst yoe2 m2 d2.
  assert (D : days_from_civil y m d = era * 146097 + doeOf yoe m d - 719468).
  { unfold days_from_civil, doeOf.
    replace (if m <=? 2 then y - 1 else y) with y'
      by (subst y' c; destruct (m <=? 2); lia).
    fold era. fold yoe. reflexivity. }
  rewrite civil_from_days_cycle, D.
  replace (era * 146097 + doeOf yoe m d - 719468 + 719468)
    with (doeOf yoe m d + era * 146097) by lia.
  rewrite Z.div_add, Z.mod_add by lia.
  rewrite (Z.div_small (doeOf yoe m d) 146097), (Z.mod_small (doeOf yoe m d) 146097) by lia.
  rewrite E. cbv zeta.
  match goal with |- (?a, m, d) = _ => replace a with y; [reflexivity|] end.
  subst c. destruct (m <=? 2); lia.
Qed.

Lemma pad4_checked : forallb (padCheck 4) (seqZ 0 10000) = true.
Proof. vm_compute. reflexivity. Qed.

Lemma pad2_checked : forallb (padCheck 2) (seqZ 0 100) = true.
Proof. vm_compute. reflexivity. Qed.

Lemma length4 (s : string) :
  String.length s = 4%nat ->
  exists a b c d, s = String a (String b (String c (String d ""))).
Proof.
  destruct s as [|a [|b [|c [|d [|e s]]]]]; try discriminate. intros _. now exists a, b, c, d.
Qed.

Lemma length2 (s : string) :
  String.length s = 2%nat -> exists a b, s = String a (String b "").
Proof.
  destruct s as [|a [|b [|c s]]]; try discriminate. intros _. now exists a, b.
Qed.

Lemma padCheck_elim w n :
  padCheck w n = true -> String.length (pad w n) = w /\ digits (pad w n) = Some n.
Proof.
  unfold padCheck. intros H. apply andb_prop in H as [L D].
  apply Nat.eqb_eq in L. split; [exact L|].
  destruct (digits (pad w n)) as [k|]; [|discriminate D].
  apply Z.eqb_eq in D. now subst.
Qed.

Lemma fmtDate_of_day y m d :
  0 <= y <= 9999 -> 1 <= m <= 12 -> 1 <= d <= daysInMonth y m ->
  fmtDate (dayStart 0 (days_from_civil y m d)) = isoText y m d.
Proof.
  intros Hy Hm Hd.
  assert (Hd31 : d <= 31).
  { unfold daysInMonth in Hd. destruct (m =? 2); [destruct (isLeap y); lia|].
    destruct (_ || _); lia. }
  destruct (padCheck_elim 4 y) as [Ly _].
  { apply (proj1 (forallb_forall _ _) pad4_checked).
    apply list_elem_of_In, elem_of_seqZ. lia. }
  destruct (padCheck_elim 2 m) as [Lm _].
  { apply (proj1 (forallb_forall _ _) pad2_checked).
    apply list_elem_of_In, elem_of_seqZ. lia. }
  destruct (padCheck_elim 2 d) as [Ld _].
  { apply (proj1 (forallb_forall _ _) pad2_checked).
    apply list_elem_of_In, elem_of_seqZ. lia. }
  unfold fmtDate, dayStart, isoDatePart, isoText.
  rewrite Z.mul_0_l, Z.sub_0_r, Z.div_mul by (unfold msPerDay; lia).
  rewrite (civil_round_trip y m d Hm Hd).
  replace ((0 <=? y) && (y <=? 9999)) with true
    by (symmetry; apply andb_true_intro; split; apply Z.leb_le; lia).
  apply length4 in Ly as (a1 & a2 & a3 & a4 & ->).
  apply length2 in Lm as (b1 & b2 & ->).
  apply length2 in Ld as (c1 & c2 & ->).
  reflexivity.
Qed.

Lemma parseDate_of_text y m d :
  0 <= y <= 9999 -> 1 <= m <= 12 -> 1 <= d <= daysInMonth y m ->
  parseDate (isoText y m d) = Some (y, m, d).
Proof.
  intros Hy Hm Hd.
  assert (Hd31 : d <= 31).
  { unfold daysInMonth in Hd. destruct (m =? 2); [destruct (isLeap y); lia|].
    destruct (_ || _); lia. }
  destruct (padCheck_elim 4 y) as [Ly Dy].
  { apply (proj1 (forallb_forall _ _) pad4_checked).
    apply list_elem_of_In, elem_of_seqZ. lia. }
  destruct (padCheck_elim 2 m) as [Lm Dm].
  { apply (proj1 (forallb_forall _ _) pad2_checked).
    apply list_elem_of_In, elem_of_seqZ. lia. }
  destruct (padCheck_elim 2 d) as [Ld Dd].
  { apply (proj1 (forallb_forall _ _) pad2_checked).
    apply list_elem_of_In, elem_of_seqZ. lia. }
  unfold isoText.
  apply length4 in Ly as (a1 & a2 & a3 & a4 & Ey).
  apply length2 in Lm as (b1 & b2 & Em).
  apply length2 in Ld as (c1 & c2 & Ed).
  rewrite Ey in *. rewrite Em in *. rewrite Ed in *.
  unfold parseDate.
  change (String.length _ =? 10)%nat with true.
  change (String.substring 0 4 _) with (String a1 (String a2 (String a3 (String a4 "")))).
  change (String.substring 5 2 _) with (String b1 (String b2 "")).
  change (String.substring 8 2 _) with (String c1 (String c2 "")).
  change (String.eqb (String.substring 4 1 _) "-") with true.
  change (String.eqb (String.substring 7 1 _) "-") with true.
  rewrite Dy, Dm, Dd. cbn [andb].
  replace ((1 <=? m) && (m <=? 12) && (1 <=? d) && (d <=? daysInMonth y m)) with true;
    [reflexivity|].
  symmetry. repeat (apply andb_true_intro; split); apply Z.leb_le; lia.
Qed.

(** X30. For a date of the years 0 to 9999 the text [YYYY-MM-DD] and the
    [Date] go back and forth: the text is read as the local midnight of
    that date, and the text computed for that midnight is the same text
    when the offset is 0 or west of Greenwich.  East of Greenwich the same
    text is computed for the midnight of the following day, so a date is
    shown as the day before. *)
Theorem date_text_round_trip y m d :
  0 <= y <= 9999 -> 1 <= m <= 12 -> 1 <= d <= daysInMonth y m ->
  (forall tz, newDate tz (isoText y m d) = Some (dayStart tz (days_from_civil y m d)))
  /\ (forall tz, -1440 < tz <= 0 ->
        fmtDate (dayStart tz (days_from_civil y m d)) = isoText y m d)
  /\ (forall tz, 0 < tz <= 1440 ->
        fmtDate (dayStart tz (days_from_civil y m d + 1)) = isoText y m d).
Proof.
  intros Hy Hm Hd. split_and!.
  - intros tz. unfold newDate. rewrite (parseDate_of_text y m d Hy Hm Hd). reflexivity.
  - intros tz Htz. rewrite (fmtDate_dayStart_west tz _ Htz).
    now apply fmtDate_of_day.
  - intros tz Htz. rewrite (fmtDate_dayStart_east tz _ Htz).
    replace (days_from_civil y m d + 1 - 1) with (days_from_civil y m d) by lia.
    now apply fmtDate_of_day.
Qed.

Lemma date_text_round_trip_witness :
  fmtDate (dayStart (-300) (days_from_civil 2024 2 29)) = isoText 2024 2 29.
Proof.
  apply (proj1 (proj2 (date_text_round_trip 2024 2 29
           ltac:(lia) ltac:(lia) ltac:(vm_compute; split; discriminate))) (-300)).
  lia.
Defined.
